(** * Thai Cookery menu: search dispatch, item card and menu page

    A shallow embedding of the decision logic of
    - [src/pages/Menu.tsx] (the [Menu] page and the [SearchBar] component
      that is bundled in the same file), and
    - [src/components/MenuItem.tsx] (the item card).

    Conventions.
    - A JavaScript string is a sequence of code units.  The development
      covers the strings whose code units are below 256; on that range
      [toLowerCase], [trim], [includes] and the regular expression below
      agree with ECMAScript.
    - An event handler is a function from the values its closure reads to
      the ordered trace of calls it makes on its collaborators (analytics,
      parent callback, cart, navigation) together with the state it sets.
    - The catalog [menuCategories] of [@/data/menuData] and the hook
      [useMenuSearch] belong to the data layer; they are section
      variables. *)

From Stdlib Require Import Bool List Arith ZArith QArith Lia.
From Stdlib Require Import Ascii String.
From Stdlib Require Import Sorting.Sorted Sorting.Permutation.
Import ListNotations.

Local Close Scope Q_scope.
Local Open Scope nat_scope.
Local Open Scope string_scope.
Local Open Scope list_scope.
Local Open Scope bool_scope.

(* ================================================================== *)
(** ** JavaScript strings *)
(* ================================================================== *)

Module JsString.

(** Code unit 34, the double quote. *)
Definition dquote : ascii := Eval cbv in ascii_of_nat 34.
(** Code unit 10, the line feed written [\n] in the sources. *)
Definition LF : ascii := Eval cbv in ascii_of_nat 10.
Definition CR : ascii := Eval cbv in ascii_of_nat 13.

(** [String.prototype.toLowerCase] on one code unit: A-Z and the
    upper-case letters of the Latin-1 supplement (U+00C0 to U+00DE
    without the multiplication sign U+00D7) move up by 32. *)
Definition lowerChar (c : ascii) : ascii :=
  let n := nat_of_ascii c in
  if ((65 <=? n) && (n <=? 90))%nat then ascii_of_nat (n + 32)
  else if ((192 <=? n) && (n <=? 222) && negb (n =? 215))%nat
       then ascii_of_nat (n + 32)
  else c.

Fixpoint toLowerCase (s : string) : string :=
  match s with
  | EmptyString => EmptyString
  | String c s' => String (lowerChar c) (toLowerCase s')
  end.

(** The WhiteSpace and LineTerminator code units removed by
    [String.prototype.trim]: TAB, LF, VT, FF, CR, SP and NBSP. *)
Definition isWhiteSpace (c : ascii) : bool :=
  let n := nat_of_ascii c in
  (((9 <=? n) && (n <=? 13)) || (n =? 32) || (n =? 160))%nat.

Fixpoint trimStart (s : string) : string :=
  match s with
  | EmptyString => EmptyString
  | String c s' => if isWhiteSpace c then trimStart s' else s
  end.

(** Removes trailing white space: a character is kept when something
    that is kept follows it, or when it is not white space. *)
Fixpoint trimEnd (s : string) : string :=
  match s with
  | EmptyString => EmptyString
  | String c s' =>
      match trimEnd s' with
      | EmptyString => if isWhiteSpace c then EmptyString
                       else String c EmptyString
      | t => String c t
      end
  end.

Definition trim (s : string) : string := trimEnd (trimStart s).

(** JavaScript truthiness of a string: the empty string is falsy. *)
Definition truthy (s : string) : bool :=
  match s with EmptyString => false | _ => true end.

(** [s.includes(searchString)]. *)
Fixpoint includes (s searchString : string) : bool :=
  prefix searchString s ||
  match s with
  | EmptyString => false
  | String _ s' => includes s' searchString
  end.

(** [Array.prototype.join] on strings. *)
Fixpoint join (sep : string) (l : list string) : string :=
  match l with
  | [] => EmptyString
  | [x] => x
  | x :: rest => x ++ sep ++ join sep rest
  end.

(** Every character of the string satisfies [p]. *)
Fixpoint all (p : ascii -> bool) (s : string) : bool :=
  match s with
  | EmptyString => true
  | String c s' => p c && all p s'
  end.

End JsString.
Import JsString.

(* ================================================================== *)
(** ** Data model ([@/data/menuData], as the two components use it) *)
(* ================================================================== *)

(** A configurable option of an item; the card reads [required] only. *)
Record MenuItemOption := { required : bool }.

Module MenuItem.
(** [price], [protein] and [calories] are JavaScript numbers: the price
    is carried as a rational, the gram and calorie counts as integers.
    An optional field is an [option]; an optional flag is its
    truthiness. *)
Record t := {
  id : string;
  name : string;
  description : string;
  price : Q;
  image : option string;
  popular : bool;
  spicy : bool;
  vegetarian : bool;
  glutenFree : bool;
  protein : option Z;
  calories : option Z;
  allergens : option (list string);
  sourcing : option string;
  options : option (list MenuItemOption)
}.
End MenuItem.

Module MenuCategory.
Record t := {
  id : string;
  name : string;
  description : option string;
  image : option string;
  items : list MenuItem.t
}.
End MenuCategory.

(** The object handed to [onSearchResults]. *)
Record SearchResult := {
  title : string;
  items : list MenuItem.t
}.

(** A value in the property map of an analytics event. *)
Inductive PropValue :=
| PString (s : string)
| PNumber (n : Z).

(** A cart line as [addToCart] receives it. *)
Record CartLine := {
  line_id : string;
  line_name : string;
  line_price : Q;
  line_quantity : Z
}.

(** The calls a handler makes on what surrounds it, in program order. *)
Inductive Call :=
| TrackUserInteraction (event : string) (props : list (string * PropValue))
| OnSearchResults (results : SearchResult)
| SetQuery (q : string)
| SetIsExpanded (b : bool)
| PreventDefault
| StopPropagation
| SetLocationHref (href : string)
| AddToCart (line : CartLine).

(** The parent callback is invoked somewhere in the trace. *)
Definition emitsResult (trace : list Call) : bool :=
  existsb (fun c => match c with OnSearchResults _ => true | _ => false end)
          trace.

(* ================================================================== *)
(** ** JavaScript arrays *)
(* ================================================================== *)

Module JsArray.
Section Sort.
Context {A : Type}.
(** A comparator as [Array.prototype.sort] takes it: negative when the
    first argument goes first, positive when the second does. *)
Variable compareFn : A -> A -> Z.

(** [x] stood before every element of [l]: it stays in front of the
    first element it does not have to follow. *)
Fixpoint insert (x : A) (l : list A) : list A :=
  match l with
  | [] => [x]
  | y :: l' => if (compareFn x y <=? 0)%Z then x :: y :: l'
               else y :: insert x l'
  end.

(** [Array.prototype.sort], which is stable (ECMAScript 2019). *)
Definition sort (l : list A) : list A := fold_right insert [] l.
End Sort.

(** [arr.slice(0, n)]. *)
Definition slice0 {A : Type} (n : nat) (l : list A) : list A := firstn n l.

Definition isDefined {A : Type} (o : option A) : bool :=
  match o with Some _ => true | None => false end.

(** [x || 0] on an optional number: [undefined] and [0] are falsy. *)
Definition orZero (o : option Z) : Z :=
  match o with
  | Some v => if (v =? 0)%Z then 0%Z else v
  | None => 0%Z
  end.
End JsArray.
Import JsArray.

(* ================================================================== *)
(** ** SearchBar *)
(* ================================================================== *)

Module SearchBar.
Section Catalog.

(** The static catalog imported from [@/data/menuData]. *)
Variable menuCategories : list MenuCategory.t.

Definition allItems : list MenuItem.t :=
  flat_map MenuCategory.items menuCategories.

Definition handleProteinQuery : SearchResult :=
  let sortedByProtein :=
    slice0 5
      (sort (fun a b => (orZero (MenuItem.protein b)
                         - orZero (MenuItem.protein a))%Z)
            (filter (fun item => isDefined (MenuItem.protein item))
                    allItems)) in
  {| title := "Highest Protein Dishes"; items := sortedByProtein |}.

Definition handleSpicyQuery : SearchResult :=
  {| title := "Spicy Dishes";
     items := filter MenuItem.spicy allItems |}.

Definition handleVegetarianQuery : SearchResult :=
  {| title := "Vegetarian Options";
     items := filter MenuItem.vegetarian allItems |}.

Definition handleGlutenFreeQuery : SearchResult :=
  {| title := "Gluten-Free Options";
     items := filter MenuItem.glutenFree allItems |}.

Definition handlePopularQuery : SearchResult :=
  {| title := "Most Popular Dishes";
     items := filter MenuItem.popular allItems |}.

(** [menuCategories.find(cat => cat.items.some(i => i.id === item.id))?.id] *)
Definition categoryIdOf (item : MenuItem.t) : option string :=
  option_map MenuCategory.id
    (find (fun cat =>
             existsb (fun i => String.eqb (MenuItem.id i) (MenuItem.id item))
                     (MenuCategory.items cat))
          menuCategories).

(** [categoryId === 'starters'] on the possibly undefined identifier. *)
Definition idIs (categoryId : option string) (s : string) : bool :=
  match categoryId with
  | Some c => String.eqb c s
  | None => false
  end.

Definition handleQuickOptions : SearchResult :=
  let quickItems :=
    filter (fun item =>
              let categoryId := categoryIdOf item in
              idIs categoryId "starters"
              || idIs categoryId "soups"
              || includes (toLowerCase (MenuItem.name item)) "fried rice")
           allItems in
  {| title := "Quick Lunch Options"; items := quickItems |}.

(** The object literal [translations]; [Object.entries] lists its keys
    in insertion order. *)
Definition translations : list (string * string) :=
  [ ("Starters", "Entrantes");
    ("Soups", "Sopas");
    ("Curries", "Curry");
    ("Noodles", "Fideos");
    ("Rice Dishes", "Platos de Arroz");
    ("Signature Specials", "Especialidades");
    ("Desserts", "Postres");
    ("Drinks", "Bebidas") ].

(** The message built by [handleSpanishQuery].  The greeting and the
    arrow are the only literals of the sources with characters beyond
    ASCII; they stand here as the bytes of their UTF-8 encoding. *)
Definition spanishResponse : string :=
  ("¡Aquí está nuestro menú en español!" ++ String LF (String LF EmptyString)
   ++ join (String LF EmptyString)
           (map (fun '(eng, spa) => eng ++ " → " ++ spa) translations))%string.

(** [handleSpanishQuery] binds [spanishResponse] and returns an object
    that does not mention it. *)
Definition handleSpanishQuery : SearchResult :=
  let spanishResponse := spanishResponse in
  {| title := "Spanish Menu"; items := [] |}.

Definition textSearch (searchText : string) : SearchResult :=
  let matchedItems :=
    filter (fun item =>
              includes (toLowerCase (MenuItem.name item)) searchText
              || includes (toLowerCase (MenuItem.description item))
                          searchText)
           allItems in
  {| title := ("Search Results for "
               ++ String dquote (searchText ++ String dquote EmptyString))%string;
     items := matchedItems |}.

(** The tail shared by the branches that reach the end of
    [handleSearch]: results go to the parent, the field is cleared. *)
Definition passUp (results : SearchResult) : list Call :=
  [ OnSearchResults results; SetQuery EmptyString; SetIsExpanded false ].

Definition handleSearch (searchText : string) : list Call :=
  if negb (truthy (trim searchText)) then []
  else
    let searchLower := toLowerCase searchText in
    TrackUserInteraction "search" [("query", PString searchText)] ::
    if includes searchLower "popular"
       || includes searchLower "best seller" then
      passUp handlePopularQuery
    else if includes searchLower "spicy"
            || includes searchLower "spiciest" then
      passUp handleSpicyQuery
    else if includes searchLower "vegetarian"
            || includes searchLower "vegan" then
      passUp handleVegetarianQuery
    else if includes searchLower "gluten" then
      passUp handleGlutenFreeQuery
    else if includes searchLower "protein"
            || includes searchLower "highest protein" then
      passUp handleProteinQuery
    else if includes searchLower "quick"
            || includes searchLower "fast"
            || includes searchLower "lunch" then
      passUp handleQuickOptions
    else if includes searchLower "spanish"
            || String.eqb searchLower "spanish" then
      let _ := handleSpanishQuery in
      []
    else
      passUp (textSearch searchLower).

Definition handleFaqClick (faqText : string) : list Call :=
  TrackUserInteraction "faq_click" [("faq", PString faqText)]
  :: SetQuery faqText
  :: handleSearch faqText.

End Catalog.

(** *** The branch taken, as a tag *)

Inductive Intent :=
| POPULAR
| SPICY
| VEGETARIAN
| GLUTEN_FREE
| HIGHEST_PROTEIN
| QUICK_LUNCH
| LANGUAGE_SWITCH
| GENERIC_TEXT_SEARCH.

(** The conditions of the if/else-if chain of [handleSearch], in the
    order of the chain, with the name of the branch each one guards. *)
Definition classify (searchLower : string) : Intent :=
  if includes searchLower "popular"
     || includes searchLower "best seller" then POPULAR
  else if includes searchLower "spicy"
          || includes searchLower "spiciest" then SPICY
  else if includes searchLower "vegetarian"
          || includes searchLower "vegan" then VEGETARIAN
  else if includes searchLower "gluten" then GLUTEN_FREE
  else if includes searchLower "protein"
          || includes searchLower "highest protein" then HIGHEST_PROTEIN
  else if includes searchLower "quick"
          || includes searchLower "fast"
          || includes searchLower "lunch" then QUICK_LUNCH
  else if includes searchLower "spanish"
          || String.eqb searchLower "spanish" then LANGUAGE_SWITCH
  else GENERIC_TEXT_SEARCH.

(** What the branch of an intent does once the search event is
    recorded. *)
Definition runBranch (menuCategories : list MenuCategory.t)
           (intent : Intent) (searchLower : string) : list Call :=
  match intent with
  | POPULAR => passUp (handlePopularQuery menuCategories)
  | SPICY => passUp (handleSpicyQuery menuCategories)
  | VEGETARIAN => passUp (handleVegetarianQuery menuCategories)
  | GLUTEN_FREE => passUp (handleGlutenFreeQuery menuCategories)
  | HIGHEST_PROTEIN => passUp (handleProteinQuery menuCategories)
  | QUICK_LUNCH => passUp (handleQuickOptions menuCategories)
  | LANGUAGE_SWITCH => []
  | GENERIC_TEXT_SEARCH => passUp (textSearch menuCategories searchLower)
  end.

(** *** The classifier in the words of the specification *)

(** The ordered rules: the trigger substrings of a rule and its intent. *)
Definition priorityRules : list (list string * Intent) :=
  [ (["popular"; "best seller"], POPULAR);
    (["spicy"; "spiciest"], SPICY);
    (["vegetarian"; "vegan"], VEGETARIAN);
    (["gluten"], GLUTEN_FREE);
    (["protein"; "highest protein"], HIGHEST_PROTEIN);
    (["quick"; "fast"; "lunch"], QUICK_LUNCH);
    (["spanish"], LANGUAGE_SWITCH) ].

Definition triggered (searchLower : string) (triggers : list string) : bool :=
  existsb (includes searchLower) triggers.

(** First matching rule wins; when none matches, the generic search. *)
Fixpoint firstMatch (rules : list (list string * Intent))
         (searchLower : string) : Intent :=
  match rules with
  | [] => GENERIC_TEXT_SEARCH
  | (triggers, intent) :: rest =>
      if triggered searchLower triggers then intent
      else firstMatch rest searchLower
  end.

(** A trigger of a rule above LANGUAGE_SWITCH is present. *)
Definition higherPriorityTrigger (searchLower : string) : bool :=
  existsb (fun rule => triggered searchLower (fst rule))
          (firstn 6 priorityRules).

End SearchBar.

(* ================================================================== *)
(** ** The item card ([MenuItem.tsx]) *)
(* ================================================================== *)

Module MenuItemCard.

(** [item.options?.some(option => option.required)]: an item without
    options gives [undefined], which is falsy. *)
Definition hasRequiredOption (item : MenuItem.t) : bool :=
  match MenuItem.options item with
  | Some opts => existsb required opts
  | None => false
  end.

(** [useState(1)]. *)
Definition initialQuantity : Z := 1%Z.

(** A handler of the card returns its trace and the quantity the state
    holds afterwards.  [quantity] is the value the rendered card closed
    over; [prev] is the value the state holds when the updater runs. *)
Definition handleAddToCart (item : MenuItem.t) (quantity prev : Z)
  : list Call * Z :=
  if hasRequiredOption item then
    ([ PreventDefault; StopPropagation;
       SetLocationHref ("/item/" ++ MenuItem.id item)%string ],
     prev)
  else
    ([ PreventDefault; StopPropagation;
       AddToCart {| line_id := MenuItem.id item;
                    line_name := MenuItem.name item;
                    line_price := MenuItem.price item;
                    line_quantity := quantity |} ],
     1%Z).

Definition incrementQuantity (prev : Z) : list Call * Z :=
  ([ PreventDefault; StopPropagation ], (prev + 1)%Z).

Definition decrementQuantity (quantity prev : Z) : list Call * Z :=
  ([ PreventDefault; StopPropagation ],
   if (quantity >? 1)%Z then (prev - 1)%Z else prev).

(** The three buttons of the card. *)
Inductive Click :=
| ClickPlus
| ClickMinus
| ClickAddToCart.

(** One click on a card that shows the current state: the card is
    rendered again after every click, so the closure reads what the
    state holds. *)
Definition click (item : MenuItem.t) (quantity : Z) (c : Click)
  : list Call * Z :=
  match c with
  | ClickPlus => incrementQuantity quantity
  | ClickMinus => decrementQuantity quantity quantity
  | ClickAddToCart => handleAddToCart item quantity quantity
  end.

(** The quantity after a sequence of clicks, from a given quantity. *)
Definition quantityAfter (item : MenuItem.t) (clicks : list Click)
           (quantity : Z) : Z :=
  fold_left (fun q c => snd (click item q c)) clicks quantity.

(** The calls made on the cart during a sequence of clicks. *)
Definition cartCalls (trace : list Call) : list CartLine :=
  flat_map (fun c => match c with AddToCart l => [l] | _ => [] end) trace.

Definition navigations (trace : list Call) : list string :=
  flat_map (fun c => match c with SetLocationHref h => [h] | _ => [] end)
           trace.

End MenuItemCard.

(* ================================================================== *)
(** ** Regular expressions, as far as [handleSearchResults] needs them *)
(* ================================================================== *)

Module JsRegExp.

Inductive Regex :=
| Lit (s : string)
| Dots (greedy : bool)
| Group (n : nat) (r : Regex)
| Seq (r1 r2 : Regex)
| Alt (r1 r2 : Regex).

(** The groups that took part in the match, most recent first. *)
Definition Captures := list (nat * string).

(** [.] matches any code unit but a line terminator. *)
Definition isLineTerminator (c : ascii) : bool :=
  Ascii.eqb c LF || Ascii.eqb c CR.

Definition notLineTerminator (c : ascii) : bool := negb (isLineTerminator c).

Fixpoint drop (n : nat) (s : string) : string :=
  match n, s with
  | O, _ => s
  | S n', String _ s' => drop n' s'
  | S _, EmptyString => EmptyString
  end.

(** The part of [input] read before [rest] was reached. *)
Definition consumed (input rest : string) : string :=
  substring 0 (String.length input - String.length rest) input.

Section Backtracking.
Context {R : Type}.

(** [.*] and [.*?] followed by the continuation [k]: the greedy form
    reads on before it tries [k], the lazy form tries [k] first. *)
Fixpoint dotStar (greedy : bool) (input : string)
         (k : string -> option R) : option R :=
  match input with
  | EmptyString => k input
  | String c rest =>
      if isLineTerminator c then k input
      else if greedy then
        match dotStar greedy rest k with
        | Some r => Some r
        | None => k input
        end
      else
        match k input with
        | Some r => Some r
        | None => dotStar greedy rest k
        end
  end.

Definition dotPlus (greedy : bool) (input : string)
           (k : string -> option R) : option R :=
  match input with
  | EmptyString => None
  | String c rest =>
      if isLineTerminator c then None else dotStar greedy rest k
  end.

(** The backtracking matcher: [k] is what remains to be matched. *)
Fixpoint matchRe (r : Regex) (input : string) (caps : Captures)
         (k : string -> Captures -> option R) : option R :=
  match r with
  | Lit s =>
      if prefix s input then k (drop (String.length s) input) caps else None
  | Dots greedy => dotPlus greedy input (fun rest => k rest caps)
  | Group n r' =>
      matchRe r' input caps
              (fun rest caps' => k rest ((n, consumed input rest) :: caps'))
  | Seq r1 r2 =>
      matchRe r1 input caps (fun rest caps' => matchRe r2 rest caps' k)
  | Alt r1 r2 =>
      match matchRe r1 input caps k with
      | Some res => Some res
      | None => matchRe r2 input caps k
      end
  end.
End Backtracking.

(** [str.match(re)] for a regular expression without the [g] flag: the
    match at the leftmost start that has one, or [null]. *)
Fixpoint exec (r : Regex) (input : string) : option Captures :=
  match matchRe r input [] (fun _ caps => Some caps) with
  | Some caps => Some caps
  | None =>
      match input with
      | EmptyString => None
      | String _ rest => exec r rest
      end
  end.

(** [m[n]]: [undefined] for a group that took no part in the match. *)
Fixpoint group (n : nat) (caps : Captures) : option string :=
  match caps with
  | [] => None
  | (i, s) :: rest => if Nat.eqb i n then Some s else group n rest
  end.

(** [a || b] where [a] may be [undefined] or a string. *)
Definition orElse (a : option string) (b : string) : string :=
  match a with
  | Some s => if truthy s then s else b
  | None => b
  end.

End JsRegExp.
Import JsRegExp.

(* ================================================================== *)
(** ** The menu page ([Menu.tsx]) *)
(* ================================================================== *)

Module Menu.

(** The state of the page that search reads and writes. *)
Record State := {
  activeCategory : string;
  searchResults : option SearchResult;
  currentQuery : string
}.

Definition searchTitlePrefix : string :=
  ("Search Results for " ++ String dquote EmptyString)%string.

(** The literal [/Search Results for "(.+?)"|(.+)/]. *)
Definition queryRegex : Regex :=
  Alt (Seq (Lit searchTitlePrefix)
           (Seq (Group 1 (Dots false)) (Lit (String dquote EmptyString))))
      (Group 2 (Dots true)).

(** [queryMatch[1] || queryMatch[2] || ""]. *)
Definition extractedQuery (queryMatch : Captures) : string :=
  orElse (group 1 queryMatch) (orElse (group 2 queryMatch) EmptyString).

Definition handleSearchResults (st : State) (results : SearchResult)
  : list Call * State :=
  let queryMatch := exec queryRegex (title results) in
  let st1 :=
    match queryMatch with
    | Some m => {| activeCategory := activeCategory st;
                   searchResults := searchResults st;
                   currentQuery := extractedQuery m |}
    | None => st
    end in
  let st2 := {| activeCategory := activeCategory st1;
                searchResults := Some results;
                currentQuery := currentQuery st1 |} in
  ([ TrackUserInteraction "search_results"
       [ ("title", PString (title results));
         ("count", PNumber (Z.of_nat (List.length (items results)))) ] ],
   st2).

Definition clearSearchResults (st : State) : list Call * State :=
  ([ TrackUserInteraction "clear_search" [] ],
   {| activeCategory := activeCategory st;
      searchResults := None;
      currentQuery := EmptyString |}).

Section Render.
(** The items of the data layer and the hook [useMenuSearch], read as
    the list it holds for a query once the query has been answered. *)
Variable DbItem : Type.
Variable useMenuSearch : string -> list DbItem.

(** What the page shows. *)
Inductive View :=
| Spinner
| LoadError
| SearchView (heading : string) (cards : list DbItem) (noItemsNote : bool)
| CategoryView (active : string).

Definition render (categoriesLoading isLoaded categoriesError : bool)
           (st : State) : View :=
  let searchItems := useMenuSearch (currentQuery st) in
  if categoriesLoading && negb isLoaded then Spinner
  else if categoriesError then LoadError
  else
    match searchResults st with
    | Some results =>
        SearchView (if truthy (title results) then title results
                    else "Search Results")
                   searchItems
                   (Nat.eqb (List.length searchItems) 0)
    | None => CategoryView (activeCategory st)
    end.
End Render.

End Menu.

(* ================================================================== *)
(** ** Vocabulary of the statements *)
(* ================================================================== *)

Module Vocabulary.

(** The protein value of an item that has one. *)
Definition proteinOf (item : MenuItem.t) : Z :=
  match MenuItem.protein item with
  | Some v => v
  | None => 0%Z
  end.

(** The item has the protein value [v]. *)
Definition proteinIs (v : Z) (item : MenuItem.t) : bool :=
  match MenuItem.protein item with
  | Some p => (p =? v)%Z
  | None => false
  end.

(** Protein values do not increase from [a] to [b]. *)
Definition proteinDescends (a b : MenuItem.t) : Prop :=
  (proteinOf b <= proteinOf a)%Z.

(** The quick-lunch test on an item of the category [cat]. *)
Definition quickIn (cat : MenuCategory.t) (item : MenuItem.t) : bool :=
  String.eqb (MenuCategory.id cat) "starters"
  || String.eqb (MenuCategory.id cat) "soups"
  || includes (toLowerCase (MenuItem.name item)) "fried rice".

(** The text-search test on an item: the lower-cased name or the
    lower-cased description contains [needle]. *)
Definition mentions (needle : string) (item : MenuItem.t) : bool :=
  includes (toLowerCase (MenuItem.name item)) needle
  || includes (toLowerCase (MenuItem.description item)) needle.

(** [Search Results for "<q>"]. *)
Definition searchTitle (q : string) : string :=
  ("Search Results for " ++ String dquote (q ++ String dquote EmptyString))%string.



(** The title is a non-empty line that does not open with
    [Search Results for] and a quoted non-empty text. *)
Definition plainForm (title : string) : Prop :=
  title <> EmptyString
  /\ all notLineTerminator title = true
  /\ forall x rest,
       x <> EmptyString ->
       title <> (Menu.searchTitlePrefix ++ x ++ String dquote rest)%string.

(** The item declares at least one required configurable option. *)
Definition declaresRequiredOption (item : MenuItem.t) : Prop :=
  exists opts o,
    MenuItem.options item = Some opts /\ In o opts /\ required o = true.

End Vocabulary.
Import Vocabulary.

(* ================================================================== *)
(** ** A small catalog to run the model on *)
(* ================================================================== *)

Module Sample.

Definition dish (id name description : string) (price : Q)
           (popular spicy vegetarian glutenFree : bool)
           (protein : option Z) (options : option (list MenuItemOption))
  : MenuItem.t :=
  {| MenuItem.id := id;
     MenuItem.name := name;
     MenuItem.description := description;
     MenuItem.price := price;
     MenuItem.image := None;
     MenuItem.popular := popular;
     MenuItem.spicy := spicy;
     MenuItem.vegetarian := vegetarian;
     MenuItem.glutenFree := glutenFree;
     MenuItem.protein := protein;
     MenuItem.calories := None;
     MenuItem.allergens := None;
     MenuItem.sourcing := None;
     MenuItem.options := options |}.

Definition category (id name : string) (items : list MenuItem.t)
  : MenuCategory.t :=
  {| MenuCategory.id := id;
     MenuCategory.name := name;
     MenuCategory.description := None;
     MenuCategory.image := None;
     MenuCategory.items := items |}.

Definition springRolls : MenuItem.t :=
  dish "thai-spring-rolls" "Thai Spring Rolls" "Crispy rolls with plum sauce"
       (7 # 1) true false true false (Some 6%Z) None.

Definition dumplings : MenuItem.t :=
  dish "steamed-dumplings" "Steamed Dumplings" "Pork and shrimp"
       (8 # 1) false false false false (Some 12%Z) None.

Definition tomYum : MenuItem.t :=
  dish "tom-yum" "Tom Yum Soup" "Hot and sour broth"
       (9 # 1) false true false true (Some 18%Z) None.

Definition padThai : MenuItem.t :=
  dish "pad-thai" "Pad Thai" "Rice noodles with tamarind"
       (12 # 1) true false false false (Some 24%Z)
       (Some [ {| required := true |}; {| required := false |} ]).

Definition greenCurry : MenuItem.t :=
  dish "green-curry" "Green Curry" "Coconut curry with basil"
       (13 # 1) false true false true (Some 24%Z) None.

Definition friedRice : MenuItem.t :=
  dish "pineapple-fried-rice" "Pineapple Fried Rice" "Jasmine rice, cashews"
       (11 # 1) false false true false (Some 18%Z) None.

Definition stickyRice : MenuItem.t :=
  dish "mango-sticky-rice" "Mango Sticky Rice" "Sweet coconut rice"
       (6 # 1) false false true true None None.

(** A stand-in for the search of the data layer. *)
Definition search (catalog : list MenuCategory.t) (q : string)
  : list MenuItem.t :=
  filter (mentions (toLowerCase q)) (flat_map MenuCategory.items catalog).

(** The state of the page before any search. *)
Definition startState : Menu.State :=
  {| Menu.activeCategory := "starters";
     Menu.searchResults := None;
     Menu.currentQuery := EmptyString |}.

Definition catalog : list MenuCategory.t :=
  [ category "starters" "Starters" [springRolls; dumplings];
    category "soups" "Soups" [tomYum];
    category "noodles" "Noodles" [padThai];
    category "curries" "Curries" [greenCurry];
    category "rice" "Rice Dishes" [friedRice];
    category "desserts" "Desserts" [stickyRice] ].

End Sample.

(* ================================================================== *)
(** ** SearchBar: the suggestions and the rotating placeholder *)
(* ================================================================== *)

Module Suggestions.

Inductive SuggestionType :=
| faq
| query.

(** A suggestion without its icon. *)
Record SearchSuggestion := {
  id : string;
  text : string;
  type : SuggestionType
}.

Definition faqs : list SearchSuggestion :=
  [ {| id := "popular"; text := "What is the most popular dish?";
       type := faq |};
    {| id := "spicy"; text := "Show me spicy dishes"; type := faq |};
    {| id := "vegetarian"; text := "I am vegetarian"; type := faq |};
    {| id := "protein"; text := "Which dish has the highest protein?";
       type := faq |};
    {| id := "gluten"; text := "Show gluten-free options"; type := faq |};
    {| id := "quick"; text := "Quick lunch options"; type := faq |} ].

(** The updater [prev => (prev + 1) % faqs.length] of the placeholder
    index, which starts at 0. *)
Definition nextPlaceholderIndex (prev : nat) : nat :=
  (prev + 1) mod List.length faqs.

(** The index after a number of ticks of the interval. *)
Fixpoint placeholderIndexAfter (ticks : nat) (start : nat) : nat :=
  match ticks with
  | O => start
  | S n => placeholderIndexAfter n (nextPlaceholderIndex start)
  end.

(** [faqs[placeholderIndex]?.text]. *)
Definition placeholderText (placeholderIndex : nat) : option string :=
  option_map text (nth_error faqs placeholderIndex).

(** The intent that the identifier of a suggestion names. *)
Definition namedIntent (faqId : string) : option SearchBar.Intent :=
  if String.eqb faqId "popular" then Some SearchBar.POPULAR
  else if String.eqb faqId "spicy" then Some SearchBar.SPICY
  else if String.eqb faqId "vegetarian" then Some SearchBar.VEGETARIAN
  else if String.eqb faqId "protein" then Some SearchBar.HIGHEST_PROTEIN
  else if String.eqb faqId "gluten" then Some SearchBar.GLUTEN_FREE
  else if String.eqb faqId "quick" then Some SearchBar.QUICK_LUNCH
  else None.

(** The value of the query field after a trace: the last [setQuery]. *)
Definition queryAfter (trace : list Call) (before : string) : string :=
  fold_left (fun q c => match c with SetQuery s => s | _ => q end)
            trace before.

(** The results handed to the parent in a trace, in order. *)
Definition delivered (trace : list Call) : list SearchResult :=
  flat_map (fun c => match c with OnSearchResults r => [r] | _ => [] end)
           trace.

End Suggestions.

(* ================================================================== *)
(** ** The menu page: categories *)
(* ================================================================== *)

Module Categories.


Section Loaded.
(** A category of the data layer; the page reads its [slug]. *)
Variable Category : Type.
Variable slug : Category -> string.

(** The effect that sets the initial active category.  Under its guard
    [categories[0]] exists. *)
Definition initialCategoryEffect (categories : list Category)
           (st : Menu.State) : Menu.State :=
  if (0 <? List.length categories)%nat
     && String.eqb (Menu.activeCategory st) EmptyString then
    match hd_error categories with
    | Some first => {| Menu.activeCategory := slug first;
                       Menu.searchResults := Menu.searchResults st;
                       Menu.currentQuery := Menu.currentQuery st |}
    | None => st
    end
  else st.

(** [categories.find(cat => cat.slug === activeCategory)]. *)
Definition selectedCategory (categories : list Category)
           (st : Menu.State) : option Category :=
  find (fun cat => String.eqb (slug cat) (Menu.activeCategory st)) categories.
End Loaded.

(** The state the page starts in: [useState("")], [useState(null)],
    [useState('')]. *)
Definition initialState : Menu.State :=
  {| Menu.activeCategory := EmptyString;
     Menu.searchResults := None;
     Menu.currentQuery := EmptyString |}.

(** The state after a run of results handed over by the search bar. *)
Definition afterResults (st : Menu.State) (results : list SearchResult)
  : Menu.State :=
  fold_left (fun s r => snd (Menu.handleSearchResults s r)) results st.

End Categories.

(* ================================================================== *)
(** ** The item card: click sequences and the allergen panel *)
(* ================================================================== *)

Module CardDetails.

(** The trace and the final quantity of a sequence of clicks. *)
Fixpoint runClicks (item : MenuItem.t) (clicks : list MenuItemCard.Click)
         (quantity : Z) : list Call * Z :=
  match clicks with
  | [] => ([], quantity)
  | c :: rest =>
      let now := MenuItemCard.click item quantity c in
      let later := runClicks item rest (snd now) in
      (fst now ++ fst later, snd later)
  end.

Definition isAddClick (c : MenuItemCard.Click) : bool :=
  match c with MenuItemCard.ClickAddToCart => true | _ => false end.

(** The allergen panel: chips, or the line "No common allergens". *)
Inductive AllergenPanel :=
| Chips (allergens : list string)
| NoCommonAllergens.

(** [item.allergens && item.allergens.length > 0 ? chips : note]; an
    array, empty or not, is truthy. *)
Definition allergenPanel (item : MenuItem.t) : AllergenPanel :=
  match MenuItem.allergens item with
  | Some l => if (0 <? List.length l)%nat then Chips l else NoCommonAllergens
  | None => NoCommonAllergens
  end.

(** The label after "Allergy Risk:". *)
Definition allergyRisk (item : MenuItem.t) : string :=
  match MenuItem.allergens item with
  | Some l =>
      if (2 <? List.length l)%nat then "High"
      else if (0 <? List.length l)%nat then "Medium"
      else "Low"
  | None => "Low"
  end.

(** The item with one more allergen at the end of its list. *)
Definition withAllergen (item : MenuItem.t) (a : string) : MenuItem.t :=
  {| MenuItem.id := MenuItem.id item;
     MenuItem.name := MenuItem.name item;
     MenuItem.description := MenuItem.description item;
     MenuItem.price := MenuItem.price item;
     MenuItem.image := MenuItem.image item;
     MenuItem.popular := MenuItem.popular item;
     MenuItem.spicy := MenuItem.spicy item;
     MenuItem.vegetarian := MenuItem.vegetarian item;
     MenuItem.glutenFree := MenuItem.glutenFree item;
     MenuItem.protein := MenuItem.protein item;
     MenuItem.calories := MenuItem.calories item;
     MenuItem.allergens :=
       Some (match MenuItem.allergens item with
             | Some l => l ++ [a]
             | None => [a]
             end);
     MenuItem.sourcing := MenuItem.sourcing item;
     MenuItem.options := MenuItem.options item |}.

(** The rank of a risk label. *)
Definition riskRank (label : string) : nat :=
  if String.eqb label "High" then 2
  else if String.eqb label "Medium" then 1
  else 0.

End CardDetails.

(* ================================================================== *)
(** ** Lines of a title *)
(* ================================================================== *)

Module TitleLines.




(** The query [say "hi"], with its two double quotes. *)
Definition sayHi : string :=
  ("say " ++ String dquote ("hi" ++ String dquote EmptyString))%string.


End TitleLines.

(* ================================================================== *)
(** * Properties *)
(* ================================================================== *)

Import SearchBar MenuItemCard Menu.
Import Suggestions Categories CardDetails TitleLines.

Arguments SearchView {DbItem} heading cards noItemsNote.
Arguments CategoryView {DbItem} active.
Arguments Spinner {DbItem}.
Arguments LoadError {DbItem}.

(** ** Strings *)

Section StringFacts.

Lemma prefix_spec (p s : string) :
  prefix p s = true <-> exists t, s = (p ++ t)%string.
Proof.
  revert s; induction p as [|a p IH]; intros s; simpl.
  - split; [intros _; now exists s | now destruct s].
  - destruct s as [|b s].
    + split; [discriminate | intros [t Ht]; discriminate].
    + simpl. destruct (ascii_dec a b) as [->|Hab].
      * rewrite IH. split; intros [t Ht]; exists t.
        -- now rewrite Ht.
        -- now inversion Ht.
      * split; [discriminate | intros [t Ht]; inversion Ht; congruence].
Qed.

Lemma prefix_refl (s : string) : prefix s s = true.
Proof.
  apply prefix_spec. exists EmptyString.
  induction s; simpl; congruence.
Qed.

Lemma append_nil_r (s : string) : (s ++ EmptyString)%string = s.
Proof. induction s; simpl; congruence. Qed.

Lemma append_assoc (a b c : string) :
  ((a ++ b) ++ c)%string = (a ++ (b ++ c))%string.
Proof. induction a; simpl; congruence. Qed.

(** [includes] finds exactly the substrings. *)
Lemma includes_spec (s sub : string) :
  includes s sub = true <-> exists pre post, s = (pre ++ sub ++ post)%string.
Proof.
  induction s as [|c s IH].
  - cbn [includes]. rewrite orb_false_r, prefix_spec. split.
    + intros [t Ht]. now exists EmptyString, t.
    + intros [pre [post H]]. destruct pre; simpl in H.
      * now exists post.
      * discriminate.
  - cbn [includes]. rewrite orb_true_iff, prefix_spec, IH. split.
    + intros [[t Ht] | [pre [post H]]].
      * now exists EmptyString, t.
      * exists (String c pre), post. simpl. now rewrite H.
    + intros [pre [post H]]. destruct pre as [|c' pre]; simpl in H.
      * left. now exists post.
      * right. inversion H. now exists pre, post.
Qed.

Lemma includes_refl (s : string) : includes s s = true.
Proof. destruct s; cbn [includes]; now rewrite prefix_refl. Qed.

Lemma includes_or_eqb (s t : string) :
  includes s t || String.eqb s t = includes s t.
Proof.
  destruct (String.eqb s t) eqn:E.
  - apply String.eqb_eq in E. subst. now rewrite includes_refl.
  - apply orb_false_r.
Qed.

Lemma toLowerCase_length (s : string) :
  String.length (toLowerCase s) = String.length s.
Proof. induction s; simpl; congruence. Qed.

Lemma trimEnd_blank (s : string) :
  all isWhiteSpace s = true -> trimEnd s = EmptyString.
Proof.
  induction s as [|c s IH]; simpl; [reflexivity|].
  intros H. apply andb_true_iff in H as [Hc Hs].
  now rewrite (IH Hs), Hc.
Qed.

Lemma trimEnd_nonblank (s : string) :
  all isWhiteSpace s = false -> trimEnd s <> EmptyString.
Proof.
  induction s as [|c s IH]; simpl; [discriminate|].
  intros H. destruct (trimEnd s) eqn:E.
  - destruct (isWhiteSpace c) eqn:Hc; [|discriminate].
    simpl in H. specialize (IH H). contradiction.
  - discriminate.
Qed.

Lemma trimStart_all (s : string) :
  all isWhiteSpace (trimStart s) = all isWhiteSpace s.
Proof.
  induction s as [|c s IH]; simpl; [reflexivity|].
  destruct (isWhiteSpace c) eqn:Hc; simpl; [assumption|].
  now rewrite Hc.
Qed.

(** [trim] leaves nothing exactly when the string is white space only. *)
Lemma trim_empty_iff (s : string) :
  trim s = EmptyString <-> all isWhiteSpace s = true.
Proof.
  unfold trim. split.
  - intros H. destruct (all isWhiteSpace s) eqn:E; [reflexivity|].
    rewrite <- trimStart_all in E.
    now apply trimEnd_nonblank in E.
  - intros H. apply trimEnd_blank. now rewrite trimStart_all.
Qed.

Lemma truthy_false_iff (s : string) : truthy s = false <-> s = EmptyString.
Proof. destruct s; simpl; split; congruence. Qed.

End StringFacts.

(** ** The search dispatch *)

Section Dispatch.

Variable menuCategories : list MenuCategory.t.

(** The if/else-if chain and the ordered rule list agree. *)
Lemma classify_firstMatch (searchLower : string) :
  classify searchLower = firstMatch priorityRules searchLower.
Proof.
  unfold classify.
  cbn [firstMatch priorityRules triggered existsb].
  rewrite includes_or_eqb, !orb_false_r, orb_assoc.
  reflexivity.
Qed.

(** [handleSearch] runs the branch that [classify] names. *)
Lemma handleSearch_runBranch (searchText : string) :
  handleSearch menuCategories searchText
  = if negb (truthy (trim searchText)) then []
    else TrackUserInteraction "search" [("query", PString searchText)]
         :: runBranch menuCategories (classify (toLowerCase searchText))
                      (toLowerCase searchText).
Proof.
  unfold handleSearch, classify.
  destruct (negb (truthy (trim searchText))); [reflexivity|].
  f_equal.
  repeat match goal with
         | |- context [if ?c then _ else _] => destruct c
         end; reflexivity.
Qed.

Lemma firstMatch_wins rules pre triggers intent post searchLower :
  rules = pre ++ (triggers, intent) :: post ->
  Forall (fun rule => triggered searchLower (fst rule) = false) pre ->
  triggered searchLower triggers = true ->
  firstMatch rules searchLower = intent.
Proof.
  intros -> Hpre Hhit.
  induction Hpre as [|[t i] pre Hx _ IH]; cbn [app firstMatch].
  - now rewrite Hhit.
  - cbn [fst] in Hx. now rewrite Hx.
Qed.

Lemma nonblank_truthy (searchText : string) :
  trim searchText <> EmptyString -> negb (truthy (trim searchText)) = false.
Proof.
  intros H. destruct (trim searchText); [contradiction|reflexivity].
Qed.

(** C1. The if/else-if chain assigns every query exactly one intent:
    the intent of the first rule, in the order popular/best seller,
    spicy/spiciest, vegetarian/vegan, gluten, protein/highest protein,
    quick/fast/lunch, spanish, one of whose trigger substrings occurs in
    the lower-cased query, and the generic text search when no rule has
    one.  A rule whose predecessors have no trigger in the query and
    which has one itself decides the intent.  For a query that passes
    the blank-query guard, [handleSearch] records the search and runs the
    branch of that intent and no other.  A query whose lower-cased form
    contains "spicy" is SPICY if and only if it contains neither
    "popular" nor "best seller". *)
Theorem C1_first_matching_rule_wins (searchText : string) :
  let searchLower := toLowerCase searchText in
  classify searchLower = firstMatch priorityRules searchLower
  /\ (trim searchText <> EmptyString ->
      handleSearch menuCategories searchText
      = TrackUserInteraction "search" [("query", PString searchText)]
        :: runBranch menuCategories (firstMatch priorityRules searchLower)
                     searchLower)
  /\ (forall pre triggers intent post,
         priorityRules = pre ++ (triggers, intent) :: post ->
         Forall (fun rule => triggered searchLower (fst rule) = false) pre ->
         triggered searchLower triggers = true ->
         classify searchLower = intent)
  /\ (includes searchLower "spicy" = true ->
      (classify searchLower = SPICY <->
       includes searchLower "popular" = false
       /\ includes searchLower "best seller" = false)).
Proof.
  intros searchLower.
  split; [apply classify_firstMatch|].
  split.
  { intros Hnb. rewrite handleSearch_runBranch, (nonblank_truthy _ Hnb).
    now rewrite classify_firstMatch. }
  split.
  { intros pre triggers intent post Hrules Hpre Hhit.
    rewrite classify_firstMatch.
    now apply (firstMatch_wins _ pre triggers intent post). }
  intros Hspicy. unfold classify. rewrite Hspicy.
  destruct (includes searchLower "popular"),
           (includes searchLower "best seller");
    cbn [orb]; split; intros H; try discriminate H;
    try (destruct H; discriminate);
    auto.
Qed.

(** Every query classified as LANGUAGE_SWITCH ends like "spanish" does:
    nothing reaches the parent. *)
Lemma language_switch_emits_nothing (searchText : string) :
  classify (toLowerCase searchText) = LANGUAGE_SWITCH ->
  emitsResult (handleSearch menuCategories searchText) = false.
Proof.
  intros H. rewrite handleSearch_runBranch, H.
  now destruct (negb (truthy (trim searchText))).
Qed.

Ltac split_trigger q t :=
  destruct (includes q t) eqn:?; cbn in *; try discriminate.

(** C2, as the code has it.  Among the queries without a trigger of a
    higher rule, LANGUAGE_SWITCH is selected exactly when the lower-cased
    query contains "spanish" as a substring, and GENERIC_TEXT_SEARCH
    exactly when it does not. *)
Theorem C2_language_switch_on_substring (searchLower : string) :
  higherPriorityTrigger searchLower = false ->
  (classify searchLower = LANGUAGE_SWITCH
   <-> includes searchLower "spanish" = true)
  /\ (classify searchLower = GENERIC_TEXT_SEARCH
      <-> includes searchLower "spanish" = false).
Proof.
  intros H. unfold classify. rewrite includes_or_eqb.
  unfold higherPriorityTrigger in H.
  cbn [firstn priorityRules existsb triggered fst] in H.
  split_trigger searchLower "popular".
  split_trigger searchLower "best seller".
  split_trigger searchLower "spicy".
  split_trigger searchLower "spiciest".
  split_trigger searchLower "vegetarian".
  split_trigger searchLower "vegan".
  split_trigger searchLower "gluten".
  split_trigger searchLower "protein".
  split_trigger searchLower "highest protein".
  split_trigger searchLower "quick".
  split_trigger searchLower "fast".
  split_trigger searchLower "lunch".
  destruct (includes searchLower "spanish"); repeat split; congruence.
Qed.

(** C3, at the query "spanish".  [handleSpanishQuery] returns an empty
    item list under the title "Spanish Menu" and no translation table;
    [handleSearch] drops that object and returns before the parent
    callback: the trace holds the analytics event and nothing else. *)
Theorem C3_language_switch_reaches_no_consumer :
  handleSearch menuCategories "spanish"
  = [ TrackUserInteraction "search" [("query", PString "spanish")] ]
  /\ emitsResult (handleSearch menuCategories "spanish") = false
  /\ handleSpanishQuery = {| title := "Spanish Menu"; items := [] |}
  /\ classify (toLowerCase "spanish") = LANGUAGE_SWITCH.
Proof. repeat split. Qed.

(** C7. A query that is empty or holds white space only makes
    [handleSearch] return at once: no analytics event, no result for the
    parent, no change of state. *)
Theorem C7_blank_query_is_noop (searchText : string) :
  all isWhiteSpace searchText = true ->
  handleSearch menuCategories searchText = []
  /\ emitsResult (handleSearch menuCategories searchText) = false.
Proof.
  intros H. apply trim_empty_iff in H.
  unfold handleSearch. rewrite H. now split.
Qed.

End Dispatch.

(** The theorem at the query "Something SPICY please". *)
Lemma C1_witness :
  handleSearch Sample.catalog "Something SPICY please"
  = TrackUserInteraction "search"
      [("query", PString "Something SPICY please")]
    :: passUp (handleSpicyQuery Sample.catalog).
Proof.
  destruct (C1_first_matching_rule_wins Sample.catalog "Something SPICY please")
    as (_ & Hrun & _).
  apply Hrun. vm_compute. discriminate.
Defined.

Lemma C2_witness :
  classify (toLowerCase "Spanish menu") = LANGUAGE_SWITCH
  <-> includes (toLowerCase "Spanish menu") "spanish" = true.
Proof.
  apply (C2_language_switch_on_substring (toLowerCase "Spanish menu")).
  vm_compute. reflexivity.
Defined.

(** C2 as stated fails: "Spanish menu" is not the string "spanish" once
    lower-cased and has no trigger of a higher rule, and it is not sent
    to the generic text search. *)
Lemma C2_counterexample :
  ~ (forall searchText : string,
        toLowerCase searchText <> "spanish" ->
        higherPriorityTrigger (toLowerCase searchText) = false ->
        classify (toLowerCase searchText) = GENERIC_TEXT_SEARCH).
Proof.
  intros H.
  assert (E : classify (toLowerCase "Spanish menu") = GENERIC_TEXT_SEARCH).
  { apply H; [vm_compute; discriminate | reflexivity]. }
  vm_compute in E. discriminate.
Qed.

Lemma C7_witness :
  handleSearch Sample.catalog (String " " (String LF "  ")) = [].
Proof.
  apply (C7_blank_query_is_noop Sample.catalog). reflexivity.
Defined.


(** ** Sorting by a key, largest first *)

Section SortFacts.

Context {A : Type}.
Variable key : A -> Z.

Let byKeyDesc (a b : A) : Z := (key b - key a)%Z.
Let descends (a b : A) : Prop := (key b <= key a)%Z.

Lemma insert_perm (x : A) (l : list A) :
  Permutation (insert byKeyDesc x l) (x :: l).
Proof.
  induction l as [|y l IH]; cbn [insert]; [reflexivity|].
  destruct (byKeyDesc x y <=? 0)%Z; [reflexivity|].
  rewrite IH. apply perm_swap.
Qed.

Lemma sort_perm (l : list A) : Permutation (sort byKeyDesc l) l.
Proof.
  induction l as [|x l IH]; cbn [sort fold_right]; [reflexivity|].
  fold (sort byKeyDesc l). now rewrite insert_perm, IH.
Qed.

Lemma insert_sorted (x : A) (l : list A) :
  StronglySorted descends l -> StronglySorted descends (insert byKeyDesc x l).
Proof.
  induction 1 as [|y l Hl IH Hy]; cbn [insert].
  - repeat constructor.
  - destruct (byKeyDesc x y <=? 0)%Z eqn:E.
    + apply Z.leb_le in E. unfold byKeyDesc in E.
      constructor; [now constructor|].
      constructor; [unfold descends; lia|].
      eapply Forall_impl; [|exact Hy].
      unfold descends. intros z Hz. lia.
    + apply Z.leb_gt in E. unfold byKeyDesc in E.
      constructor; [exact IH|].
      rewrite (insert_perm x l).
      constructor; [unfold descends; lia | exact Hy].
Qed.

Lemma sort_sorted (l : list A) : StronglySorted descends (sort byKeyDesc l).
Proof.
  induction l as [|x l IH]; cbn [sort fold_right]; [constructor|].
  now apply insert_sorted.
Qed.

(** Stability: the elements of one key keep their order. *)
Lemma insert_stable (v : Z) (x : A) (l : list A) :
  filter (fun a => (key a =? v)%Z) (insert byKeyDesc x l)
  = filter (fun a => (key a =? v)%Z) (x :: l).
Proof.
  induction l as [|y l IH]; cbn [insert]; [reflexivity|].
  destruct (byKeyDesc x y <=? 0)%Z eqn:E; [reflexivity|].
  apply Z.leb_gt in E. unfold byKeyDesc in E.
  cbn [filter] in *. rewrite IH.
  destruct (key y =? v)%Z eqn:Ey, (key x =? v)%Z eqn:Ex; try reflexivity.
  apply Z.eqb_eq in Ey, Ex. lia.
Qed.

Lemma sort_stable (v : Z) (l : list A) :
  filter (fun a => (key a =? v)%Z) (sort byKeyDesc l)
  = filter (fun a => (key a =? v)%Z) l.
Proof.
  induction l as [|x l IH]; cbn [sort fold_right]; [reflexivity|].
  fold (sort byKeyDesc l). rewrite insert_stable.
  cbn [filter]. now rewrite IH.
Qed.

(** A sorted list is determined by the order within each key: every
    stable sort returns the same list. *)
Lemma sorted_stable_unique (l1 l2 : list A) :
  StronglySorted descends l1 ->
  StronglySorted descends l2 ->
  (forall v, filter (fun a => (key a =? v)%Z) l1
             = filter (fun a => (key a =? v)%Z) l2) ->
  l1 = l2.
Proof.
  intros H1. revert l2.
  induction H1 as [|x l1 Hs1 IH Hx]; intros l2 H2 Hsame.
  - destruct l2 as [|y l2]; [reflexivity|].
    specialize (Hsame (key y)). cbn [filter] in Hsame.
    rewrite Z.eqb_refl in Hsame. discriminate.
  - destruct H2 as [|y l2 Hs2 Hy].
    { specialize (Hsame (key x)). cbn [filter] in Hsame.
      rewrite Z.eqb_refl in Hsame. discriminate. }
    rewrite Forall_forall in Hx, Hy. unfold descends in Hx, Hy.
    assert (Hyx : (key y <= key x)%Z).
    { assert (Hin : In y (filter (fun a => (key a =? key y)%Z) (x :: l1))).
      { rewrite (Hsame (key y)). cbn [filter]. rewrite Z.eqb_refl.
        now left. }
      apply filter_In in Hin as [[->|Hin] _]; [lia | now apply Hx]. }
    assert (Hxy : (key x <= key y)%Z).
    { assert (Hin : In x (filter (fun a => (key a =? key x)%Z) (y :: l2))).
      { rewrite <- (Hsame (key x)). cbn [filter]. rewrite Z.eqb_refl.
        now left. }
      apply filter_In in Hin as [[->|Hin] _]; [lia | now apply Hy]. }
    assert (Hhead : x = y).
    { pose proof (Hsame (key x)) as E. cbn [filter] in E.
      rewrite Z.eqb_refl in E.
      replace (key y =? key x)%Z with true in E
        by (symmetry; apply Z.eqb_eq; lia).
      now inversion E. }
    subst y. f_equal. apply IH; [exact Hs2|].
    intros v. specialize (Hsame v). cbn [filter] in Hsame.
    destruct (key x =? v)%Z; [now inversion Hsame | exact Hsame].
Qed.

End SortFacts.

Section ListFacts.

Context {A : Type}.

Lemma StronglySorted_firstn (R : A -> A -> Prop) (n : nat) (l : list A) :
  StronglySorted R l -> StronglySorted R (firstn n l).
Proof.
  intros H. revert n.
  induction H as [|x l Hl IH Hx]; intros [|n]; cbn [firstn];
    try constructor.
  - apply IH.
  - apply Forall_forall. intros y Hy.
    rewrite Forall_forall in Hx. apply Hx.
    rewrite <- (firstn_skipn n l). apply in_or_app. now left.
Qed.

Lemma StronglySorted_impl_on (R R' : A -> A -> Prop) (l : list A) :
  (forall a b, In a l -> In b l -> R a b -> R' a b) ->
  StronglySorted R l -> StronglySorted R' l.
Proof.
  intros Himp H. induction H as [|x l Hl IH Hx]; constructor.
  - apply IH. intros a b Ha Hb. apply Himp; now right.
  - rewrite Forall_forall in *. intros y Hy.
    apply Himp; [now left | now right | now apply Hx].
Qed.

Lemma filter_firstn_prefix (p : A -> bool) (n : nat) (l : list A) :
  filter p l = filter p (firstn n l) ++ filter p (skipn n l).
Proof. now rewrite <- filter_app, firstn_skipn. Qed.

Lemma filter_ext_on (p q : A -> bool) (l : list A) :
  (forall x, In x l -> p x = q x) -> filter p l = filter q l.
Proof.
  induction l as [|x l IH]; intros H; cbn [filter]; [reflexivity|].
  rewrite (H x (or_introl eq_refl)), IH; [reflexivity|].
  intros y Hy. apply H. now right.
Qed.

Lemma filter_twice (p q : A -> bool) (l : list A) :
  filter p (filter q l) = filter (fun x => q x && p x) l.
Proof.
  induction l as [|x l IH]; cbn [filter]; [reflexivity|].
  destruct (q x); cbn [filter andb]; now rewrite IH.
Qed.

End ListFacts.

(** ** The result builders *)

Section Builders.

Variable menuCategories : list MenuCategory.t.

Lemma orZero_defined (item : MenuItem.t) :
  isDefined (MenuItem.protein item) = true ->
  orZero (MenuItem.protein item) = proteinOf item.
Proof.
  unfold proteinOf. destruct (MenuItem.protein item) as [v|]; [|discriminate].
  intros _. cbn [orZero]. destruct (Z.eqb_spec v 0); congruence.
Qed.

Lemma proteinIs_defined (v : Z) (item : MenuItem.t) :
  proteinIs v item
  = isDefined (MenuItem.protein item)
    && (orZero (MenuItem.protein item) =? v)%Z.
Proof.
  unfold proteinIs. destruct (MenuItem.protein item) as [p|]; [|reflexivity].
  cbn [isDefined orZero andb].
  destruct (Z.eqb_spec p 0) as [->|]; reflexivity.
Qed.

(** C4. The HIGHEST_PROTEIN result is the first five elements of a list
    that is a rearrangement of the catalog items with a defined protein
    value, in which protein values never increase and in which the items
    of one protein value stand in catalog order; there is one such list,
    whatever the sorting algorithm.  So the result has at
    most five items, each with a defined protein value; its protein
    values never increase; and its items of one protein value are the
    first such items of the catalog, in catalog order. *)
Theorem C4_highest_protein_top_five :
  let result := items (handleProteinQuery menuCategories) in
  let candidates :=
    filter (fun item => isDefined (MenuItem.protein item))
           (allItems menuCategories) in
  let stablySorted sorted :=
    Permutation sorted candidates
    /\ StronglySorted proteinDescends sorted
    /\ (forall v, filter (proteinIs v) sorted
                  = filter (proteinIs v) candidates) in
  title (handleProteinQuery menuCategories) = "Highest Protein Dishes"
  /\ (exists sorted, stablySorted sorted /\ result = firstn 5 sorted)
  /\ (forall sorted, stablySorted sorted -> result = firstn 5 sorted)
  /\ List.length result <= 5
  /\ Forall (fun item => In item (allItems menuCategories)
                         /\ MenuItem.protein item <> None) result
  /\ StronglySorted proteinDescends result
  /\ (forall v, exists rest,
         filter (proteinIs v) (allItems menuCategories)
         = filter (proteinIs v) result ++ rest).
Proof.
  intros result candidates stablySorted.
  set (key := fun item => orZero (MenuItem.protein item)).
  set (sorted := sort (fun a b => (key b - key a)%Z) candidates).
  assert (Hres : result = firstn 5 sorted) by reflexivity.
  assert (Hdef : forall l item, Permutation l candidates -> In item l ->
                   In item (allItems menuCategories)
                   /\ isDefined (MenuItem.protein item) = true).
  { intros l item Hperm Hin. apply (Permutation_in _ Hperm) in Hin.
    now apply filter_In in Hin. }
  assert (Hkey : forall l v, Permutation l candidates ->
                   filter (proteinIs v) l
                   = filter (fun a => (key a =? v)%Z) l).
  { intros l v Hperm. apply filter_ext_on. intros x Hx.
    apply (Hdef l x Hperm) in Hx as [_ Hx].
    rewrite proteinIs_defined, Hx. reflexivity. }
  assert (Hrel : forall l a b, Permutation l candidates ->
                   In a l -> In b l ->
                   (proteinDescends a b <-> (key b <= key a)%Z)).
  { intros l a b Hperm Ha Hb. unfold proteinDescends, key.
    apply (Hdef l a Hperm) in Ha as [_ Ha].
    apply (Hdef l b Hperm) in Hb as [_ Hb].
    now rewrite !orZero_defined. }
  assert (Hperm : Permutation sorted candidates) by apply sort_perm.
  assert (Hsorted : StronglySorted proteinDescends sorted).
  { apply (StronglySorted_impl_on (fun a b => (key b <= key a)%Z)).
    - intros a b Ha Hb. now apply (Hrel sorted a b Hperm).
    - apply sort_sorted. }
  assert (Hstable : forall v, filter (proteinIs v) sorted
                              = filter (proteinIs v) candidates).
  { intros v. rewrite (Hkey sorted v Hperm), (Hkey candidates v);
      [apply sort_stable | reflexivity]. }
  split; [reflexivity|].
  split; [exists sorted; repeat split; assumption|].
  split.
  { intros other (Hperm' & Hsorted' & Hstable').
    rewrite Hres. f_equal.
    apply (sorted_stable_unique key).
    - apply sort_sorted.
    - apply (StronglySorted_impl_on proteinDescends); [|exact Hsorted'].
      intros a b Ha Hb. now apply (Hrel other a b Hperm').
    - intros v. rewrite <- (Hkey sorted v Hperm), <- (Hkey other v Hperm').
      now rewrite Hstable, Hstable'. }
  split; [rewrite Hres; apply firstn_le_length|].
  split.
  { apply Forall_forall. intros item Hin. rewrite Hres in Hin.
    assert (Hin' : In item sorted).
    { rewrite <- (firstn_skipn 5 sorted). apply in_or_app. now left. }
    apply (Hdef sorted item Hperm) in Hin' as [Hcat Hp].
    split; [exact Hcat|].
    destruct (MenuItem.protein item); discriminate. }
  split; [rewrite Hres; now apply StronglySorted_firstn|].
  intros v. exists (filter (proteinIs v) (skipn 5 sorted)).
  rewrite Hres, <- filter_firstn_prefix, Hstable.
  unfold candidates. rewrite filter_twice.
  apply filter_ext_on. intros x _.
  unfold proteinIs. now destruct (MenuItem.protein x).
Qed.

End Builders.

Lemma C4_witness :
  List.length (items (handleProteinQuery Sample.catalog)) <= 5
  /\ StronglySorted proteinDescends (items (handleProteinQuery Sample.catalog))
  /\ filter (proteinIs 24) (items (handleProteinQuery Sample.catalog))
     = [ Sample.padThai; Sample.greenCurry ].
Proof.
  destruct (C4_highest_protein_top_five Sample.catalog)
    as (_ & _ & _ & Hlen & _ & Hdesc & _).
  split; [exact Hlen|]. split; [exact Hdesc | reflexivity].
Defined.

Example highest_protein_sample :
  items (handleProteinQuery Sample.catalog)
  = [ Sample.padThai; Sample.greenCurry; Sample.tomYum; Sample.friedRice;
      Sample.dumplings ].
Proof. reflexivity. Qed.

(** ** Generic text search *)

Section TextSearch.

Variable menuCategories : list MenuCategory.t.

(** C5, as the code has it.  For a query classified as
    GENERIC_TEXT_SEARCH the parent receives exactly the catalog items
    whose lower-cased name or lower-cased description contains the
    lower-cased query as a substring, in catalog order, under the title
    [Search Results for "<q>"] where <q> is the lower-cased query. *)
Theorem C5_generic_search_lowercased_title (searchText : string) :
  trim searchText <> EmptyString ->
  classify (toLowerCase searchText) = GENERIC_TEXT_SEARCH ->
  let searchLower := toLowerCase searchText in
  exists results,
    handleSearch menuCategories searchText
    = TrackUserInteraction "search" [("query", PString searchText)]
      :: passUp results
    /\ title results = searchTitle searchLower
    /\ items results = filter (mentions searchLower) (allItems menuCategories)
    /\ (forall item,
           In item (items results) <->
           In item (allItems menuCategories)
           /\ ((exists pre post,
                   toLowerCase (MenuItem.name item)
                   = (pre ++ searchLower ++ post)%string)
               \/ (exists pre post,
                      toLowerCase (MenuItem.description item)
                      = (pre ++ searchLower ++ post)%string))).
Proof.
  intros Hnb Hgen searchLower.
  exists (textSearch menuCategories searchLower).
  split; [|split; [reflexivity|split; [reflexivity|]]].
  - subst searchLower.
    rewrite handleSearch_runBranch, (nonblank_truthy _ Hnb).
    now rewrite Hgen.
  - intros item. cbn [textSearch items].
    rewrite filter_In, orb_true_iff, !includes_spec. reflexivity.
Qed.

End TextSearch.

Lemma C5_witness :
  exists results,
    handleSearch Sample.catalog "Pad"
    = TrackUserInteraction "search" [("query", PString "Pad")]
      :: passUp results
    /\ title results = searchTitle "pad"
    /\ items results = [ Sample.padThai ].
Proof.
  destruct (C5_generic_search_lowercased_title Sample.catalog "Pad")
    as (results & Hrun & Htitle & Hitems & _).
  - vm_compute. discriminate.
  - reflexivity.
  - exists results. split; [exact Hrun|]. split; [exact Htitle|].
    rewrite Hitems. reflexivity.
Defined.

(** C5 as stated fails on the title: the query "Pad" is a generic text
    search, and the title handed to the parent quotes "pad", not the
    query as it was typed. *)
Lemma C5_counterexample :
  ~ (forall (menuCategories : list MenuCategory.t) (searchText : string)
            (results : SearchResult),
        classify (toLowerCase searchText) = GENERIC_TEXT_SEARCH ->
        In (OnSearchResults results) (handleSearch menuCategories searchText) ->
        title results = searchTitle searchText).
Proof.
  intros H.
  specialize (H Sample.catalog "Pad"
                (textSearch Sample.catalog "pad") eq_refl).
  assert (E : title (textSearch Sample.catalog "pad") = searchTitle "Pad").
  { apply H. vm_compute. right. left. reflexivity. }
  vm_compute in E. discriminate.
Qed.

(** ** Quick lunch *)

Section QuickLunch.

Lemma NoDup_app_disjoint {A : Type} (l1 l2 : list A) (x : A) :
  NoDup (l1 ++ l2) -> In x l1 -> In x l2 -> False.
Proof.
  induction l1 as [|y l1 IH]; cbn [app]; intros Hnd H1 H2; [easy|].
  inversion Hnd as [|? ? Hy Hrest]; subst.
  destruct H1 as [->|H1].
  - apply Hy, in_or_app. now right.
  - now apply IH.
Qed.

(** With unique item identifiers, the category found for an item is the
    category that lists it. *)
Lemma categoryIdOf_owner pre cat post item :
  NoDup (map MenuItem.id (allItems (pre ++ cat :: post))) ->
  In item (MenuCategory.items cat) ->
  categoryIdOf (pre ++ cat :: post) item = Some (MenuCategory.id cat).
Proof.
  unfold categoryIdOf, allItems. intros Hnd Hin.
  induction pre as [|c pre IH]; cbn [app find].
  - replace (existsb _ (MenuCategory.items cat)) with true; [reflexivity|].
    symmetry. apply existsb_exists. exists item.
    split; [exact Hin | apply String.eqb_refl].
  - cbn [app flat_map] in Hnd. rewrite map_app in Hnd.
    destruct (existsb _ (MenuCategory.items c)) eqn:E.
    + exfalso. apply existsb_exists in E as (i & Hi & Heq).
      apply String.eqb_eq in Heq.
      apply (NoDup_app_disjoint _ _ (MenuItem.id item) Hnd).
      * rewrite <- Heq. now apply in_map.
      * apply in_map. rewrite flat_map_app. apply in_or_app. right.
        cbn [flat_map]. apply in_or_app. now left.
    + apply IH. now apply NoDup_app_remove_l in Hnd.
Qed.

Variable menuCategories : list MenuCategory.t.

Lemma quickItems_by_category pre suf :
  menuCategories = pre ++ suf ->
  NoDup (map MenuItem.id (allItems menuCategories)) ->
  filter (fun item =>
            idIs (categoryIdOf menuCategories item) "starters"
            || idIs (categoryIdOf menuCategories item) "soups"
            || includes (toLowerCase (MenuItem.name item)) "fried rice")
         (flat_map MenuCategory.items suf)
  = flat_map (fun cat => filter (quickIn cat) (MenuCategory.items cat)) suf.
Proof.
  intros Hsplit Hnd. revert pre Hsplit.
  induction suf as [|cat suf IH]; intros pre Hsplit; [reflexivity|].
  cbn [flat_map]. rewrite filter_app. f_equal.
  - apply filter_ext_on. intros item Hin.
    rewrite Hsplit in Hnd |- *.
    now rewrite (categoryIdOf_owner pre cat suf item Hnd Hin).
  - apply (IH (pre ++ [cat])). now rewrite <- app_assoc.
Qed.

(** C8. When item identifiers are unique within the catalog, the
    QUICK_LUNCH result, titled "Quick Lunch Options", lists category by
    category, in catalog order, exactly the items whose own category has
    the identifier "starters" or "soups" or whose lower-cased name
    contains "fried rice". *)
Theorem C8_quick_lunch_by_owning_category :
  NoDup (map MenuItem.id (allItems menuCategories)) ->
  title (handleQuickOptions menuCategories) = "Quick Lunch Options"
  /\ items (handleQuickOptions menuCategories)
     = flat_map (fun cat => filter (quickIn cat) (MenuCategory.items cat))
                menuCategories
  /\ (forall item,
         In item (items (handleQuickOptions menuCategories)) <->
         exists cat,
           In cat menuCategories
           /\ In item (MenuCategory.items cat)
           /\ (MenuCategory.id cat = "starters"
               \/ MenuCategory.id cat = "soups"
               \/ exists pre post,
                    toLowerCase (MenuItem.name item)
                    = (pre ++ "fried rice" ++ post)%string)).
Proof.
  intros Hnd.
  assert (Hitems : items (handleQuickOptions menuCategories)
                   = flat_map (fun cat => filter (quickIn cat)
                                                 (MenuCategory.items cat))
                              menuCategories).
  { exact (quickItems_by_category [] menuCategories eq_refl Hnd). }
  split; [reflexivity|]. split; [exact Hitems|].
  intros item. rewrite Hitems, in_flat_map.
  split; intros (cat & Hcat & H); exists cat; (split; [exact Hcat|]).
  - apply filter_In in H as [Hin Hq]. split; [exact Hin|].
    unfold quickIn in Hq.
    rewrite !orb_true_iff, !String.eqb_eq, includes_spec in Hq. tauto.
  - destruct H as [Hin Hq]. apply filter_In. split; [exact Hin|].
    unfold quickIn.
    rewrite !orb_true_iff, !String.eqb_eq, includes_spec. tauto.
Qed.

End QuickLunch.

Lemma C8_witness :
  items (handleQuickOptions Sample.catalog)
  = [ Sample.springRolls; Sample.dumplings; Sample.tomYum; Sample.friedRice ].
Proof.
  destruct (C8_quick_lunch_by_owning_category Sample.catalog)
    as (_ & Hitems & _).
  - vm_compute.
    repeat (constructor;
            [cbn [In]; intros H;
             repeat (destruct H as [H|H]; [discriminate|]); exact H|]).
    constructor.
  - rewrite Hitems. reflexivity.
Defined.

(** ** The item card *)

Section Card.

Variable item : MenuItem.t.

Lemma hasRequiredOption_spec :
  hasRequiredOption item = true <-> declaresRequiredOption item.
Proof.
  unfold hasRequiredOption, declaresRequiredOption.
  destruct (MenuItem.options item) as [opts|].
  - rewrite existsb_exists. split.
    + intros (o & Hin & Hreq). now exists opts, o.
    + intros (opts' & o & Heq & Hin & Hreq). inversion Heq; subst.
      now exists o.
  - split; [discriminate|]. intros (opts & o & Heq & _). discriminate.
Qed.

(** C6. On "add to cart": when the item declares a required option the
    cart is not called, the only effect beyond the event bookkeeping is
    the navigation to [/item/<id>], and the quantity stays as it is;
    otherwise the cart is called exactly once with the identifier, name
    and price of the item and the quantity shown, nothing is navigated
    to, and the quantity becomes 1. *)
Theorem C6_add_to_cart_or_redirect (quantity prev : Z) :
  let outcome := handleAddToCart item quantity prev in
  (declaresRequiredOption item ->
   cartCalls (fst outcome) = []
   /\ navigations (fst outcome) = [ ("/item/" ++ MenuItem.id item)%string ]
   /\ fst outcome = [ PreventDefault; StopPropagation;
                      SetLocationHref ("/item/" ++ MenuItem.id item)%string ]
   /\ snd outcome = prev)
  /\ (~ declaresRequiredOption item ->
      cartCalls (fst outcome)
      = [ {| line_id := MenuItem.id item;
             line_name := MenuItem.name item;
             line_price := MenuItem.price item;
             line_quantity := quantity |} ]
      /\ navigations (fst outcome) = []
      /\ snd outcome = 1%Z).
Proof.
  intros outcome. subst outcome. unfold handleAddToCart.
  split; intros H.
  - apply hasRequiredOption_spec in H. rewrite H. now repeat split.
  - destruct (hasRequiredOption item) eqn:E.
    + apply hasRequiredOption_spec in E. contradiction.
    + now repeat split.
Qed.

Lemma quantity_stays_positive (clicks : list Click) (quantity : Z) :
  (1 <= quantity)%Z -> (1 <= quantityAfter item clicks quantity)%Z.
Proof.
  unfold quantityAfter. revert quantity.
  induction clicks as [|c clicks IH]; intros quantity Hq; [exact Hq|].
  cbn [fold_left]. apply IH.
  destruct c; cbn [click incrementQuantity decrementQuantity snd].
  - lia.
  - destruct (Z.gtb_spec quantity 1); lia.
  - unfold handleAddToCart.
    destruct (hasRequiredOption item); cbn [snd]; lia.
Qed.

(** C9. The quantity of a card starts at 1; the plus button adds exactly
    1; the minus button takes 1 away when the quantity is above 1 and
    leaves it alone otherwise; and after any sequence of clicks on the
    three buttons of the card the quantity is at least 1. *)
Theorem C9_quantity_never_below_one (clicks : list Click) :
  initialQuantity = 1%Z
  /\ (forall q, snd (click item q ClickPlus) = (q + 1)%Z)
  /\ (forall q, (1 < q)%Z -> snd (click item q ClickMinus) = (q - 1)%Z)
  /\ (forall q, (q <= 1)%Z -> snd (click item q ClickMinus) = q)
  /\ (1 <= quantityAfter item clicks initialQuantity)%Z.
Proof.
  split; [reflexivity|]. split; [reflexivity|].
  split; [|split].
  - intros q Hq. cbn. destruct (Z.gtb_spec q 1); [reflexivity|lia].
  - intros q Hq. cbn. destruct (Z.gtb_spec q 1); [lia|reflexivity].
  - apply quantity_stays_positive. unfold initialQuantity. lia.
Qed.

End Card.

Lemma C6_witness :
  cartCalls (fst (handleAddToCart Sample.padThai 3 3)) = []
  /\ navigations (fst (handleAddToCart Sample.padThai 3 3))
     = [ "/item/pad-thai" ]
  /\ cartCalls (fst (handleAddToCart Sample.springRolls 3 3))
     = [ {| line_id := "thai-spring-rolls";
            line_name := "Thai Spring Rolls";
            line_price := (7 # 1)%Q;
            line_quantity := 3 |} ]
  /\ snd (handleAddToCart Sample.springRolls 3 3) = 1%Z.
Proof.
  destruct (C6_add_to_cart_or_redirect Sample.padThai 3 3) as [Hreq _].
  destruct (C6_add_to_cart_or_redirect Sample.springRolls 3 3) as [_ Hfree].
  destruct Hreq as (Hc & Hn & _).
  { exists [ {| required := true |}; {| required := false |} ],
           {| required := true |}.
    split; [reflexivity|]. split; [now left | reflexivity]. }
  destruct Hfree as (Hc' & _ & Hq).
  { intros (opts & o & Heq & _). discriminate. }
  split; [exact Hc|]. split; [exact Hn|]. split; [exact Hc' | exact Hq].
Defined.

Lemma C9_witness :
  (1 <= quantityAfter Sample.springRolls
          [ClickMinus; ClickMinus; ClickPlus; ClickAddToCart; ClickMinus]
          initialQuantity)%Z
  /\ snd (click Sample.springRolls 1 ClickMinus) = 1%Z
  /\ snd (click Sample.springRolls 4 ClickMinus) = 3%Z.
Proof.
  destruct (C9_quantity_never_below_one Sample.springRolls
              [ClickMinus; ClickMinus; ClickPlus; ClickAddToCart; ClickMinus])
    as (_ & _ & Hdown & Hfloor & Hinv).
  split; [exact Hinv|]. split.
  - apply Hfloor. lia.
  - apply Hdown. lia.
Defined.

(** ** The regular expression of the page *)

Section RegexFacts.

Lemma length_append (a b : string) :
  String.length (a ++ b) = String.length a + String.length b.
Proof. induction a; simpl; congruence. Qed.


Lemma drop_append (p t : string) : drop (String.length p) (p ++ t) = t.
Proof. induction p; cbn [append String.length drop]; congruence. Qed.

Lemma substring_append (a b : string) :
  substring 0 (String.length a) (a ++ b) = a.
Proof.
  induction a as [|c a IH]; cbn [append String.length].
  - now destruct b.
  - cbn [substring]. now rewrite IH.
Qed.

Lemma consumed_append (a b : string) : consumed (a ++ b) b = a.
Proof.
  unfold consumed. rewrite length_append.
  replace (String.length a + String.length b - String.length b)
    with (String.length a) by lia.
  apply substring_append.
Qed.

Lemma consumed_all (s : string) : consumed s EmptyString = s.
Proof.
  rewrite <- (append_nil_r s) at 1. apply consumed_append.
Qed.


Context {R : Type}.
Implicit Type k : string -> option R.

Lemma dotStar_inv greedy input k r :
  dotStar greedy input k = Some r ->
  exists x rest, input = (x ++ rest)%string /\ k rest = Some r.
Proof.
  induction input as [|c t IH]; cbn [dotStar].
  - intros H. now exists EmptyString, EmptyString.
  - destruct (isLineTerminator c).
    { intros H. now exists EmptyString, (String c t). }
    destruct greedy.
    + destruct (dotStar true t k) as [r0|] eqn:E.
      * intros H. inversion H; subst.
        destruct (IH eq_refl) as (x & rest & -> & Hk).
        now exists (String c x), rest.
      * intros H. now exists EmptyString, (String c t).
    + destruct (k (String c t)) as [r0|] eqn:E.
      * intros H. inversion H; subst.
        now exists EmptyString, (String c t).
      * intros H. destruct (IH H) as (x & rest & -> & Hk).
        now exists (String c x), rest.
Qed.

Lemma dotPlus_inv greedy input k r :
  dotPlus greedy input k = Some r ->
  exists x rest,
    x <> EmptyString /\ input = (x ++ rest)%string /\ k rest = Some r.
Proof.
  destruct input as [|c t]; cbn [dotPlus]; [discriminate|].
  destruct (isLineTerminator c); [discriminate|].
  intros H. apply dotStar_inv in H as (x & rest & -> & Hk).
  exists (String c x), rest. now repeat split.
Qed.


(** The greedy form reads a line to its end when the rest may be empty. *)
Lemma dotStar_greedy_all t k r :
  all notLineTerminator t = true ->
  k EmptyString = Some r ->
  dotStar true t k = Some r.
Proof.
  intros Hlt Hk.
  induction t as [|c t IH]; cbn [dotStar]; [exact Hk|].
  cbn [all] in Hlt. apply andb_true_iff in Hlt as [Hc Ht].
  unfold notLineTerminator in Hc. apply negb_true_iff in Hc.
  now rewrite Hc, (IH Ht).
Qed.




End RegexFacts.

Section QueryRegex.

Let final : string -> Captures -> option Captures :=
  fun _ caps => Some caps.

Lemma exec_unfold (r : Regex) (input : string) :
  exec r input
  = match matchRe r input [] final with
    | Some caps => Some caps
    | None => match input with
              | EmptyString => None
              | String _ rest => exec r rest
              end
    end.
Proof. destruct input; reflexivity. Qed.

(** The two alternatives of [queryRegex], tried at one start. *)
Lemma queryRegex_unfold (input : string) :
  matchRe queryRegex input [] final
  = match
      (if prefix searchTitlePrefix input then
         dotPlus false (drop (String.length searchTitlePrefix) input)
           (fun rest =>
              if prefix (String dquote EmptyString) rest then
                Some [(1, consumed
                            (drop (String.length searchTitlePrefix) input)
                            rest)]
              else None)
       else None)
    with
    | Some caps => Some caps
    | None => dotPlus true input (fun rest => Some [(2, consumed input rest)])
    end.
Proof. reflexivity. Qed.


Lemma matchRe_plain (title : string) :
  plainForm title ->
  matchRe queryRegex title [] final = Some [(2, title)].
Proof.
  intros (Hne & Hlt & Hform).
  rewrite queryRegex_unfold.
  match goal with
  | |- context [match ?a with Some caps => Some caps | None => _ end] =>
      assert (Halt1 : a = None)
  end.
  { destruct (prefix searchTitlePrefix title) eqn:Hp; [|reflexivity].
    apply prefix_spec in Hp as [t Ht].
    match goal with
    | |- ?a = None => destruct a as [caps|] eqn:E; [exfalso|reflexivity]
    end.
    rewrite Ht, drop_append in E.
    apply dotPlus_inv in E as (x & rest & Hx & -> & Hk).
    destruct (prefix (String dquote EmptyString) rest) eqn:Hq;
      [|discriminate].
    apply prefix_spec in Hq as [rest' ->].
    exact (Hform x rest' Hx Ht). }
  rewrite Halt1.
  destruct title as [|c t']; [contradiction|].
  cbn [all] in Hlt. apply andb_true_iff in Hlt as [Hc Ht].
  unfold notLineTerminator in Hc. apply negb_true_iff in Hc.
  cbn [dotPlus]. rewrite Hc.
  rewrite (dotStar_greedy_all t' _ [(2, String c t')]);
    [reflexivity | exact Ht | now rewrite consumed_all].
Qed.

Lemma exec_plain (title : string) :
  plainForm title -> exec queryRegex title = Some [(2, title)].
Proof.
  intros H. now rewrite exec_unfold, (matchRe_plain title H).
Qed.





End QueryRegex.

(** ** From the search bar to the page *)

Section Delivered.

Variable menuCategories : list MenuCategory.t.

(** What [handleSearch] can hand to the parent. *)
Lemma delivered_cases (searchText : string) (results : SearchResult) :
  In (OnSearchResults results) (handleSearch menuCategories searchText) ->
  results = handlePopularQuery menuCategories
  \/ results = handleSpicyQuery menuCategories
  \/ results = handleVegetarianQuery menuCategories
  \/ results = handleGlutenFreeQuery menuCategories
  \/ results = handleProteinQuery menuCategories
  \/ results = handleQuickOptions menuCategories
  \/ results = textSearch menuCategories (toLowerCase searchText).
Proof.
  rewrite handleSearch_runBranch.
  destruct (negb (truthy (trim searchText))); [contradiction|].
  intros [H|H]; [discriminate|].
  destruct (classify (toLowerCase searchText)); cbn [runBranch passUp In] in H;
    try contradiction;
    destruct H as [H|[H|[H|[]]]]; try discriminate;
    inversion H; tauto.
Qed.


End Delivered.

Example fixed_title_is_the_query :
  option_map extractedQuery (exec queryRegex "Spicy Dishes")
  = Some "Spicy Dishes".
Proof. reflexivity. Qed.

(** ** The model on concrete inputs *)

Example toLowerCase_Pad_Thai : toLowerCase "Pad Thai" = "pad thai".
Proof. reflexivity. Qed.

Example trim_blank : trim "   " = EmptyString.
Proof. reflexivity. Qed.

Example trim_keeps_inner : trim "  a b  " = "a b".
Proof. reflexivity. Qed.

Example includes_fried_rice :
  includes "pineapple fried rice" "fried rice" = true.
Proof. reflexivity. Qed.

Example popular_beats_spicy :
  classify (toLowerCase "Popular spicy dishes") = POPULAR.
Proof. reflexivity. Qed.

Example faq_protein :
  classify (toLowerCase "Which dish has the highest protein?")
  = HIGHEST_PROTEIN.
Proof. reflexivity. Qed.

Example pad_finds_Pad_Thai :
  items (textSearch Sample.catalog "pad") = [ Sample.padThai ].
Proof. reflexivity. Qed.

Example quoted_query_with_inner_quote :
  option_map extractedQuery
             (exec queryRegex
                   (searchTitle ("a" ++ String dquote "b")%string))
  = Some "a".
Proof. reflexivity. Qed.

(* ================================================================== *)
(** * Further properties of the search bar *)
(* ================================================================== *)

Section CaseFacts.

Lemma lowerChar_idempotent (c : ascii) : lowerChar (lowerChar c) = lowerChar c.
Proof. destruct c as [[] [] [] [] [] [] [] []]; reflexivity. Qed.

Lemma lowerChar_whitespace (c : ascii) :
  isWhiteSpace (lowerChar c) = isWhiteSpace c.
Proof. destruct c as [[] [] [] [] [] [] [] []]; reflexivity. Qed.

Lemma toLowerCase_idempotent (s : string) :
  toLowerCase (toLowerCase s) = toLowerCase s.
Proof.
  induction s as [|c s IH]; cbn [toLowerCase]; [reflexivity|].
  now rewrite lowerChar_idempotent, IH.
Qed.

Lemma toLowerCase_blank (s : string) :
  all isWhiteSpace (toLowerCase s) = all isWhiteSpace s.
Proof.
  induction s as [|c s IH]; cbn [toLowerCase all]; [reflexivity|].
  now rewrite lowerChar_whitespace, IH.
Qed.

Lemma blank_guard (s : string) :
  negb (truthy (trim s)) = all isWhiteSpace s.
Proof.
  destruct (all isWhiteSpace s) eqn:E.
  - apply trim_empty_iff in E. now rewrite E.
  - destruct (trim s) eqn:T; [|reflexivity].
    apply trim_empty_iff in T. congruence.
Qed.

Lemma includes_trans (s b a : string) :
  includes s b = true -> includes b a = true -> includes s a = true.
Proof.
  rewrite !includes_spec.
  intros (p & q & ->) (p' & q' & ->).
  exists (p ++ p')%string, (q' ++ q)%string.
  now rewrite !append_assoc.
Qed.

Lemma includes_empty (s : string) : includes s EmptyString = true.
Proof. apply includes_spec. now exists EmptyString, s. Qed.

End CaseFacts.

Section SearchBarMore.

Variable menuCategories : list MenuCategory.t.

(** X1. What a search does after its analytics event depends on the
    lower-cased form of the query only: two queries that differ in the
    case of their letters are both dropped or both dispatched, and when
    dispatched they make the same calls after the first one. *)
Theorem search_ignores_letter_case (q1 q2 : string) :
  toLowerCase q1 = toLowerCase q2 ->
  (handleSearch menuCategories q1 = []
   <-> handleSearch menuCategories q2 = [])
  /\ tl (handleSearch menuCategories q1) = tl (handleSearch menuCategories q2)
  /\ delivered (handleSearch menuCategories q1)
     = delivered (handleSearch menuCategories q2).
Proof.
  intros Hlow.
  assert (Hblank : all isWhiteSpace q1 = all isWhiteSpace q2).
  { now rewrite <- (toLowerCase_blank q1), Hlow, toLowerCase_blank. }
  rewrite !handleSearch_runBranch, !blank_guard, Hblank, Hlow.
  destruct (all isWhiteSpace q2); repeat split; intros; try discriminate;
    reflexivity.
Qed.

(** X2. A longer query narrows a text search: when the text [narrow]
    contains the text [wide], the items found for [narrow] are the items
    found for [wide] that also mention [narrow]; and the empty text finds
    every item of the catalog. *)
Theorem textSearch_narrows (wide narrow : string) :
  includes narrow wide = true ->
  items (textSearch menuCategories narrow)
  = filter (mentions narrow) (items (textSearch menuCategories wide))
  /\ incl (items (textSearch menuCategories narrow))
          (items (textSearch menuCategories wide))
  /\ items (textSearch menuCategories EmptyString) = allItems menuCategories.
Proof.
  intros Hsub.
  assert (Himp : forall item, mentions narrow item = true ->
                              mentions wide item = true).
  { intros item. unfold mentions. rewrite !orb_true_iff.
    intros [H|H]; [left|right]; eapply includes_trans; eauto. }
  assert (Heq : items (textSearch menuCategories narrow)
                = filter (mentions narrow)
                         (items (textSearch menuCategories wide))).
  { cbn [textSearch items]. fold (mentions narrow) (mentions wide).
    rewrite filter_twice. apply filter_ext_on. intros item _.
    destruct (mentions narrow item) eqn:E.
    - now rewrite (Himp item E).
    - now rewrite andb_false_r. }
  split; [exact Heq|]. split.
  - rewrite Heq. intros item Hin. now apply filter_In in Hin.
  - cbn [textSearch items].
    rewrite (filter_ext_on _ (fun _ => true)).
    + induction (allItems menuCategories) as [|x l IH]; cbn [filter];
        congruence.
    + intros item _. now rewrite includes_empty.
Qed.

(** Unique identifiers stay unique under a filter. *)
Lemma unique_ids_survive_filter (keep : MenuItem.t -> bool)
      (dishes : list MenuItem.t) :
  NoDup (map MenuItem.id dishes) ->
  NoDup (map MenuItem.id (filter keep dishes)).
Proof.
  induction dishes as [|x l IH]; cbn [map filter]; intros H; [constructor|].
  inversion H as [|? ? Hx Hl]; subst.
  destruct (keep x); cbn [map]; [|now apply IH].
  constructor; [|now apply IH].
  intros Hin. apply Hx. apply in_map_iff in Hin as (y & Hy & Hin).
  apply filter_In in Hin as [Hin _]. rewrite <- Hy. now apply in_map.
Qed.

Lemma firstn_keeps_NoDup {A : Type} (l : list A) (n : nat) (H : NoDup l) :
  NoDup (firstn n l).
Proof.
  rewrite <- (firstn_skipn n l) in H.
  now apply NoDup_app_remove_r in H.
Qed.

Lemma filter_no_longer (keep : MenuItem.t -> bool) (dishes : list MenuItem.t) :
  List.length (filter keep dishes) <= List.length dishes.
Proof.
  induction dishes as [|x l IH]; cbn [filter List.length]; [lia|].
  destruct (keep x); cbn [List.length]; lia.
Qed.

(** X3. Whatever the query, a result handed to the parent lists items of
    the catalog only, no more of them than the catalog has, and lists no
    identifier twice when the catalog does not. *)
Theorem delivered_items_come_from_catalog
        (searchText : string) (results : SearchResult) :
  In (OnSearchResults results) (handleSearch menuCategories searchText) ->
  incl (items results) (allItems menuCategories)
  /\ List.length (items results) <= List.length (allItems menuCategories)
  /\ (NoDup (map MenuItem.id (allItems menuCategories)) ->
      NoDup (map MenuItem.id (items results))).
Proof.
  intros Hin. apply delivered_cases in Hin.
  assert (Hfilter : forall p,
             incl (filter p (allItems menuCategories))
                  (allItems menuCategories)
             /\ List.length (filter p (allItems menuCategories))
                <= List.length (allItems menuCategories)
             /\ (NoDup (map MenuItem.id (allItems menuCategories)) ->
                 NoDup (map MenuItem.id
                            (filter p (allItems menuCategories))))).
  { intros p. split; [|split].
    - intros x Hx. now apply filter_In in Hx.
    - apply filter_no_longer.
    - apply unique_ids_survive_filter. }
  destruct Hin as [->|[->|[->|[->|[->|[->| ->]]]]]];
    try apply Hfilter.
  cbn [handleProteinQuery items]. unfold slice0.
  set (cands := filter _ (allItems menuCategories)).
  set (sorted := sort _ cands).
  assert (Hperm : Permutation sorted cands)
    by apply (sort_perm (fun item => orZero (MenuItem.protein item))).
  destruct (Hfilter (fun item => isDefined (MenuItem.protein item)))
    as (Hincl & Hlen & Hnd).
  fold cands in Hincl, Hlen, Hnd.
  split; [|split].
  - intros x Hx. apply Hincl. apply (Permutation_in _ Hperm).
    rewrite <- (firstn_skipn 5 sorted). apply in_or_app. now left.
  - rewrite length_firstn, (Permutation_length Hperm). lia.
  - intros H. rewrite <- firstn_map. apply firstn_keeps_NoDup.
    apply (Permutation_NoDup (l := map MenuItem.id cands)).
    + apply Permutation_map. now symmetry.
    + now apply Hnd.
Qed.

(** X4. Every suggestion of the search bar reaches the intent that its
    identifier names: a click records the click, then the search, hands
    the parent exactly one result, that of the named intent, and leaves
    the query field empty. *)
Theorem every_faq_reaches_its_intent (suggestion : SearchSuggestion) :
  In suggestion faqs ->
  exists intent,
    namedIntent (id suggestion) = Some intent
    /\ classify (toLowerCase (text suggestion)) = intent
    /\ intent <> LANGUAGE_SWITCH
    /\ intent <> GENERIC_TEXT_SEARCH
    /\ handleFaqClick menuCategories (text suggestion)
       = TrackUserInteraction "faq_click" [("faq", PString (text suggestion))]
         :: SetQuery (text suggestion)
         :: TrackUserInteraction "search"
              [("query", PString (text suggestion))]
         :: runBranch menuCategories intent (toLowerCase (text suggestion))
    /\ List.length (delivered (handleFaqClick menuCategories
                                              (text suggestion))) = 1
    /\ (forall before,
           queryAfter (handleFaqClick menuCategories (text suggestion)) before
           = EmptyString).
Proof.
  intros Hin.
  exists (classify (toLowerCase (text suggestion))).
  unfold handleFaqClick. rewrite handleSearch_runBranch.
  cbn [faqs In] in Hin.
  repeat (destruct Hin as [<-|Hin]; [repeat split; discriminate|]).
  contradiction.
Qed.

End SearchBarMore.

Lemma search_ignores_letter_case_witness :
  tl (handleSearch Sample.catalog "PAD thai")
  = tl (handleSearch Sample.catalog "pad THAI").
Proof.
  destruct (search_ignores_letter_case Sample.catalog "PAD thai" "pad THAI")
    as (_ & Htl & _); [reflexivity | exact Htl].
Defined.

Lemma textSearch_narrows_witness :
  items (textSearch Sample.catalog "rice n")
  = filter (mentions "rice n") (items (textSearch Sample.catalog "rice")).
Proof.
  destruct (textSearch_narrows Sample.catalog "rice" "rice n")
    as (Heq & _); [reflexivity | exact Heq].
Defined.

Lemma delivered_items_come_from_catalog_witness :
  incl (items (handleSpicyQuery Sample.catalog)) (allItems Sample.catalog).
Proof.
  destruct (delivered_items_come_from_catalog
              Sample.catalog "something spicy"
              (handleSpicyQuery Sample.catalog))
    as (Hincl & _); [|exact Hincl].
  vm_compute. right. left. reflexivity.
Defined.

Lemma every_faq_reaches_its_intent_witness :
  exists intent,
    namedIntent "gluten" = Some intent
    /\ classify (toLowerCase "Show gluten-free options") = intent.
Proof.
  destruct (every_faq_reaches_its_intent
              Sample.catalog
              {| id := "gluten"; text := "Show gluten-free options";
                 type := faq |})
    as (intent & Hnamed & Hclass & _).
  - cbn [faqs In]. do 4 right. left. reflexivity.
  - exists intent. split; assumption.
Defined.

Section PlaceholderFacts.

Lemma placeholderIndexAfter_step (ticks start : nat) :
  placeholderIndexAfter (S ticks) start
  = (start + S ticks) mod List.length faqs.
Proof.
  revert start. induction ticks as [|n IH]; intros start.
  - reflexivity.
  - change (placeholderIndexAfter (S (S n)) start)
      with (placeholderIndexAfter (S n) (nextPlaceholderIndex start)).
    rewrite IH. unfold nextPlaceholderIndex.
    rewrite Nat.Div0.add_mod_idemp_l. f_equal. lia.
Qed.

(** X5. The placeholder index, which starts at 0, is after any number of
    ticks that number modulo the number of suggestions: it always points
    at a suggestion, shows its text, and comes back to where it was
    after as many ticks as there are suggestions. *)
Theorem placeholder_cycles_through_faqs (ticks : nat) :
  placeholderIndexAfter ticks 0 = ticks mod List.length faqs
  /\ (exists suggestion,
         nth_error faqs (placeholderIndexAfter ticks 0) = Some suggestion
         /\ placeholderText (placeholderIndexAfter ticks 0)
            = Some (text suggestion))
  /\ placeholderIndexAfter (ticks + List.length faqs) 0
     = placeholderIndexAfter ticks 0.
Proof.
  assert (Hidx : forall n, placeholderIndexAfter n 0 = n mod List.length faqs).
  { intros [|n]; [reflexivity|]. now rewrite placeholderIndexAfter_step. }
  split; [apply Hidx|]. split.
  - rewrite Hidx.
    assert (Hlt : ticks mod List.length faqs < List.length faqs)
      by (apply Nat.mod_upper_bound; discriminate).
    destruct (nth_error faqs (ticks mod List.length faqs)) as [s|] eqn:E.
    + exists s. split; [reflexivity|]. unfold placeholderText. now rewrite E.
    + apply nth_error_None in E. lia.
  - rewrite !Hidx.
    rewrite <- Nat.Div0.add_mod_idemp_r, Nat.Div0.mod_same, Nat.add_0_r.
    reflexivity.
Qed.

End PlaceholderFacts.

(* ================================================================== *)
(** * Further properties of the result builders *)
(* ================================================================== *)

Section ProteinMore.

Variable menuCategories : list MenuCategory.t.

Lemma StronglySorted_app_cross {A : Type} (R : A -> A -> Prop)
      (l1 l2 : list A) (a b : A) :
  StronglySorted R (l1 ++ l2) -> In a l1 -> In b l2 -> R a b.
Proof.
  induction l1 as [|x l1 IH]; cbn [app]; intros Hs Ha Hb; [contradiction|].
  inversion Hs as [|? ? Hrest Hx]; subst.
  destruct Ha as [->|Ha].
  - rewrite Forall_forall in Hx. apply Hx, in_or_app. now right.
  - now apply IH.
Qed.

(** X6. The HIGHEST_PROTEIN result has five items when at least five
    catalog items have a protein value and all of them otherwise; and an
    item with a protein value that is left out has no more protein than
    any item of the result. *)
Theorem highest_protein_takes_the_best :
  let result := items (handleProteinQuery menuCategories) in
  let candidates :=
    filter (fun item => isDefined (MenuItem.protein item))
           (allItems menuCategories) in
  List.length result = Nat.min 5 (List.length candidates)
  /\ (List.length candidates <= 5 -> Permutation result candidates)
  /\ (forall left_out,
         In left_out candidates ->
         In left_out result
         \/ forall kept, In kept result ->
                         (proteinOf left_out <= proteinOf kept)%Z).
Proof.
  intros result candidates.
  set (key := fun item => orZero (MenuItem.protein item)).
  set (sorted := sort (fun a b => (key b - key a)%Z) candidates).
  assert (Hres : result = firstn 5 sorted) by reflexivity.
  assert (Hperm : Permutation sorted candidates) by apply sort_perm.
  assert (Hdef : forall item, In item sorted ->
                              key item = proteinOf item).
  { intros item Hin. apply (Permutation_in _ Hperm) in Hin.
    apply filter_In in Hin as [_ Hin]. now apply orZero_defined. }
  split; [|split].
  - rewrite Hres, length_firstn, (Permutation_length Hperm). reflexivity.
  - intros Hfew. rewrite Hres, firstn_all2; [exact Hperm|].
    now rewrite (Permutation_length Hperm).
  - intros c Hc. apply (Permutation_in _ (Permutation_sym Hperm)) in Hc.
    pose proof Hc as Hc'.
    rewrite <- (firstn_skipn 5 sorted) in Hc.
    apply in_app_or in Hc as [Hc|Hc]; [left; now rewrite Hres|].
    right. intros r Hr. rewrite Hres in Hr.
    pose proof (sort_sorted key candidates) as Hs. fold sorted in Hs.
    rewrite <- (firstn_skipn 5 sorted) in Hs.
    pose proof (StronglySorted_app_cross _ _ _ r c Hs Hr Hc) as Hle.
    cbv beta in Hle.
    rewrite <- (Hdef c Hc'), <- (Hdef r); [exact Hle|].
    rewrite <- (firstn_skipn 5 sorted). apply in_or_app. now left.
Qed.

End ProteinMore.

Lemma highest_protein_takes_the_best_witness :
  List.length (items (handleProteinQuery Sample.catalog)) = 5
  /\ (In Sample.springRolls (items (handleProteinQuery Sample.catalog))
      \/ forall kept,
           In kept (items (handleProteinQuery Sample.catalog)) ->
           (proteinOf Sample.springRolls <= proteinOf kept)%Z).
Proof.
  destruct (highest_protein_takes_the_best Sample.catalog)
    as (Hlen & _ & Hbest).
  split; [exact Hlen|].
  apply Hbest. vm_compute. left. reflexivity.
Defined.

(* ================================================================== *)
(** * Further properties of the page *)
(* ================================================================== *)

Section ExtractionFacts.








Variable menuCategories : list MenuCategory.t.



End ExtractionFacts.



Section PageMore.

Variable DbItem : Type.
Variable useMenuSearch : string -> list DbItem.

Lemma afterResults_activeCategory (results : list SearchResult) (st : State) :
  activeCategory (afterResults st results) = activeCategory st.
Proof.
  unfold afterResults. revert st.
  induction results as [|r rest IH]; intros st; cbn [fold_left];
    [reflexivity|].
  rewrite IH. unfold handleSearchResults. cbn [snd activeCategory].
  now destruct (exec queryRegex (title r)).
Qed.

(** X9. Clearing the search after any number of results puts the page in
    the state that clearing would have given before them: no result, an
    empty query, the active category untouched.  With the catalog loaded
    the page then shows the active category, and a page that showed no
    search before shows what it showed then. *)
Theorem clearing_restores_the_category_view
        (results : list SearchResult) (st : State)
        (categoriesLoading isLoaded categoriesError : bool) :
  let show := render DbItem useMenuSearch
                     categoriesLoading isLoaded categoriesError in
  let cleared := snd (clearSearchResults (afterResults st results)) in
  cleared = snd (clearSearchResults st)
  /\ cleared = {| activeCategory := activeCategory st;
                  searchResults := None;
                  currentQuery := EmptyString |}
  /\ (categoriesLoading && negb isLoaded = false ->
      categoriesError = false ->
      show cleared = CategoryView (activeCategory st))
  /\ (searchResults st = None -> show cleared = show st).
Proof.
  intros show cleared. subst show cleared.
  unfold clearSearchResults. cbn [snd].
  rewrite afterResults_activeCategory.
  split; [reflexivity|]. split; [reflexivity|]. split.
  - intros Hload Herr. unfold render. now rewrite Hload, Herr.
  - intros Hnone. unfold render. cbn [searchResults activeCategory].
    now rewrite Hnone.
Qed.

End PageMore.

Section InitialCategory.

Variable Category : Type.
Variable slug : Category -> string.

(** X11. The effect that picks the initial category: with an empty
    catalog it changes nothing and no category is selected; with a
    loaded catalog and no active category it activates the slug of the
    first category, and the category the page then selects is that first
    one; it never replaces an active category; running it again changes
    nothing more; and it leaves the search alone. *)
Theorem initial_category_is_the_first
        (categories : list Category) (st : State) :
  let ready := initialCategoryEffect Category slug categories st in
  (categories = [] ->
   ready = st /\ selectedCategory Category slug categories ready = None)
  /\ (forall first rest,
         categories = first :: rest ->
         activeCategory st = EmptyString ->
         activeCategory ready = slug first
         /\ selectedCategory Category slug categories ready = Some first)
  /\ (activeCategory st <> EmptyString -> ready = st)
  /\ initialCategoryEffect Category slug categories ready = ready
  /\ searchResults ready = searchResults st
  /\ currentQuery ready = currentQuery st.
Proof.
  intros ready. subst ready. unfold initialCategoryEffect.
  split; [|split; [|split; [|split]]].
  - intros ->. now split.
  - intros first rest -> Hactive. rewrite Hactive.
    cbn [List.length Nat.ltb Nat.leb andb String.eqb hd_error activeCategory].
    split; [reflexivity|].
    unfold selectedCategory. cbn [find activeCategory].
    now rewrite String.eqb_refl.
  - intros Hactive.
    destruct (String.eqb_spec (activeCategory st) EmptyString);
      [contradiction|].
    now rewrite andb_false_r.
  - destruct categories as [|first rest]; [reflexivity|].
    cbn [List.length Nat.ltb Nat.leb andb hd_error].
    destruct (String.eqb_spec (activeCategory st) EmptyString) as [E|E].
    + cbn [activeCategory searchResults currentQuery].
      now destruct (String.eqb (slug first) EmptyString).
    + now destruct (String.eqb_spec (activeCategory st) EmptyString).
  - destruct ((0 <? List.length categories)%nat && _); [|now split].
    now destruct (hd_error categories).
Qed.

End InitialCategory.

Lemma clearing_restores_the_category_view_witness :
  render MenuItem.t (Sample.search Sample.catalog) false true false
         (snd (clearSearchResults
                 (afterResults Sample.startState
                               [ handleSpicyQuery Sample.catalog;
                                 textSearch Sample.catalog "pad" ])))
  = render MenuItem.t (Sample.search Sample.catalog) false true false
           Sample.startState.
Proof.
  destruct (clearing_restores_the_category_view
              MenuItem.t (Sample.search Sample.catalog)
              [ handleSpicyQuery Sample.catalog;
                textSearch Sample.catalog "pad" ]
              Sample.startState false true false)
    as (_ & _ & _ & Hsame).
  apply Hsame. reflexivity.
Defined.

Lemma initial_category_is_the_first_witness :
  selectedCategory MenuCategory.t MenuCategory.id Sample.catalog
    (initialCategoryEffect MenuCategory.t MenuCategory.id Sample.catalog
                           initialState)
  = hd_error Sample.catalog.
Proof.
  destruct (initial_category_is_the_first
              MenuCategory.t MenuCategory.id Sample.catalog initialState)
    as (_ & Hfirst & _).
  destruct (Hfirst (Sample.category "starters" "Starters"
                      [Sample.springRolls; Sample.dumplings])
                   (tl Sample.catalog) eq_refl eq_refl)
    as (_ & Hsel).
  exact Hsel.
Defined.

(* ================================================================== *)
(** * Further properties of the item card *)
(* ================================================================== *)

Section CardMore.

Variable item : MenuItem.t.

Lemma runClicks_quantity (clicks : list Click) (quantity : Z) :
  snd (runClicks item clicks quantity) = quantityAfter item clicks quantity.
Proof.
  unfold quantityAfter. revert quantity.
  induction clicks as [|c rest IH]; intros quantity; cbn [runClicks snd];
    [reflexivity|].
  now rewrite IH.
Qed.

Lemma cartCalls_app (t1 t2 : list Call) :
  cartCalls (t1 ++ t2) = cartCalls t1 ++ cartCalls t2.
Proof. apply flat_map_app. Qed.

Lemma navigations_app (t1 t2 : list Call) :
  navigations (t1 ++ t2) = navigations t1 ++ navigations t2.
Proof. apply flat_map_app. Qed.

(** X12. Over any sequence of clicks on the three buttons of a card,
    every line that reaches the cart carries the identifier, name and
    price of the item and a quantity of at least 1. *)
Theorem cart_lines_are_positive (clicks : list Click) :
  Forall (fun line =>
            (1 <= line_quantity line)%Z
            /\ line_id line = MenuItem.id item
            /\ line_name line = MenuItem.name item
            /\ line_price line = MenuItem.price item)
         (cartCalls (fst (runClicks item clicks initialQuantity))).
Proof.
  assert (Hgen : forall quantity,
             (1 <= quantity)%Z ->
             Forall (fun line =>
                       (1 <= line_quantity line)%Z
                       /\ line_id line = MenuItem.id item
                       /\ line_name line = MenuItem.name item
                       /\ line_price line = MenuItem.price item)
                    (cartCalls (fst (runClicks item clicks quantity)))).
  { induction clicks as [|c rest IH]; intros quantity Hq;
      cbn [runClicks fst]; [constructor|].
    rewrite cartCalls_app. apply Forall_app. split.
    - destruct c; cbn; try constructor.
      unfold handleAddToCart.
      destruct (hasRequiredOption item); cbn; repeat constructor.
      exact Hq.
    - apply IH.
      exact (quantity_stays_positive item [c] quantity Hq). }
  apply Hgen. unfold initialQuantity. lia.
Qed.

(** X13. Over any sequence of clicks: a card whose item declares a
    required option never calls the cart and navigates to the detail
    view of the item once per click on "add"; a card whose item declares
    none never navigates and calls the cart once per click on "add". *)
Theorem clicks_reach_cart_or_detail_view
        (clicks : list Click) (quantity : Z) :
  let trace := fst (runClicks item clicks quantity) in
  let adds := List.length (filter isAddClick clicks) in
  (declaresRequiredOption item ->
   cartCalls trace = []
   /\ navigations trace
      = repeat ("/item/" ++ MenuItem.id item)%string adds)
  /\ (~ declaresRequiredOption item ->
      navigations trace = []
      /\ List.length (cartCalls trace) = adds).
Proof.
  intros trace adds. subst trace adds.
  split; intros Hreq.
  - apply hasRequiredOption_spec in Hreq.
    revert quantity.
    induction clicks as [|c rest IH]; intros quantity;
      cbn [runClicks fst]; [now split|].
    rewrite cartCalls_app, navigations_app.
    destruct (IH (snd (click item quantity c))) as [Hc Hn].
    rewrite Hc, Hn.
    destruct c; cbn [click incrementQuantity decrementQuantity fst
                     filter isAddClick]; try (now split).
    unfold handleAddToCart. rewrite Hreq. now split.
  - assert (Hfree : hasRequiredOption item = false).
    { destruct (hasRequiredOption item) eqn:E; [|reflexivity].
      apply hasRequiredOption_spec in E. contradiction. }
    revert quantity.
    induction clicks as [|c rest IH]; intros quantity;
      cbn [runClicks fst]; [now split|].
    rewrite cartCalls_app, navigations_app, length_app.
    destruct (IH (snd (click item quantity c))) as [Hn Hc].
    rewrite Hc, Hn.
    destruct c; cbn [click incrementQuantity decrementQuantity fst
                     filter isAddClick]; try (now split).
    unfold handleAddToCart. rewrite Hfree. now split.
Qed.

Lemma runClicks_app (first second : list Click) (quantity : Z) :
  runClicks item (first ++ second) quantity
  = (fst (runClicks item first quantity)
     ++ fst (runClicks item second (snd (runClicks item first quantity))),
     snd (runClicks item second (snd (runClicks item first quantity)))).
Proof.
  revert quantity.
  induction first as [|c rest IH]; intros quantity; cbn [app runClicks fst snd].
  - now destruct (runClicks item second quantity).
  - rewrite IH. cbn [fst snd]. now rewrite app_assoc.
Qed.

Lemma plus_clicks (k : nat) (quantity : Z) :
  cartCalls (fst (runClicks item (repeat ClickPlus k) quantity)) = []
  /\ snd (runClicks item (repeat ClickPlus k) quantity)
     = (quantity + Z.of_nat k)%Z.
Proof.
  revert quantity. induction k as [|n IH]; intros quantity.
  - cbn [repeat runClicks fst snd]. split; [reflexivity | lia].
  - cbn [repeat runClicks click incrementQuantity fst snd app cartCalls
         flat_map].
    destruct (IH (quantity + 1)%Z) as [Hnone Hq].
    fold (cartCalls (fst (runClicks item (repeat ClickPlus n) (quantity + 1)))).
    rewrite Hnone, Hq. split; [reflexivity | lia].
Qed.

(** X14. On a fresh card of an item without a required option, [k]
    clicks on plus followed by "add" call the cart once, with the
    quantity [1 + k], and leave the card at quantity 1; and from a
    quantity of at least 1 a click on minus undoes a click on plus. *)
Theorem plus_clicks_then_add (k : nat) :
  ~ declaresRequiredOption item ->
  let outcome := runClicks item (repeat ClickPlus k ++ [ClickAddToCart])
                           initialQuantity in
  cartCalls (fst outcome)
  = [ {| line_id := MenuItem.id item;
         line_name := MenuItem.name item;
         line_price := MenuItem.price item;
         line_quantity := (1 + Z.of_nat k)%Z |} ]
  /\ snd outcome = 1%Z
  /\ (forall quantity,
         (1 <= quantity)%Z ->
         quantityAfter item [ClickPlus; ClickMinus] quantity = quantity).
Proof.
  intros Hreq outcome. subst outcome.
  assert (Hfree : hasRequiredOption item = false).
  { destruct (hasRequiredOption item) eqn:E; [|reflexivity].
    apply hasRequiredOption_spec in E. contradiction. }
  rewrite runClicks_app. cbn [fst snd].
  destruct (plus_clicks k initialQuantity) as [Hnone Hq].
  rewrite cartCalls_app, Hnone, Hq.
  cbn [runClicks click fst snd app]. unfold handleAddToCart.
  rewrite Hfree. unfold initialQuantity.
  split; [reflexivity|]. split; [reflexivity|].
  intros quantity Hpos. cbn.
  destruct (Z.gtb_spec (quantity + 1) 1); lia.
Qed.

(** X15. The allergy-risk label and the allergen panel agree: the label
    is "Low" exactly when the panel reads "No common allergens";
    otherwise the panel shows the allergens of the item, the label is
    "High" from three allergens on and "Medium" below; and one more
    allergen never lowers the label and never leaves it at "Low". *)
Theorem allergy_risk_matches_panel :
  (allergyRisk item = "Low" <-> allergenPanel item = NoCommonAllergens)
  /\ (forall shown,
         allergenPanel item = Chips shown ->
         MenuItem.allergens item = Some shown
         /\ shown <> []
         /\ (allergyRisk item = "High" <-> 3 <= List.length shown)
         /\ (allergyRisk item = "Medium" <-> List.length shown <= 2))
  /\ (forall a,
         riskRank (allergyRisk item)
         <= riskRank (allergyRisk (withAllergen item a))
         /\ allergyRisk (withAllergen item a) <> "Low").
Proof.
  unfold allergyRisk, allergenPanel, withAllergen.
  cbn [MenuItem.allergens].
  destruct (MenuItem.allergens item) as [l|].
  - split; [|split].
    + destruct l as [|a [|b [|c l]]]; cbn; split; congruence.
    + intros shown H.
      destruct l as [|a l]; cbn in H; [discriminate|].
      inversion H; subst shown. split; [reflexivity|].
      split; [discriminate|].
      destruct l as [|b [|c l]]; cbn; split; split;
        try discriminate; try lia; try reflexivity.
    + intros a. rewrite length_app. cbn [List.length].
      destruct l as [|x [|y [|z l]]]; cbn; split;
        try discriminate; try lia.
      all: rewrite length_app; cbn [List.length].
      all: replace (List.length l + 1) with (S (List.length l)) by lia.
      all: cbn; try lia; discriminate.
  - split; [|split].
    + now split.
    + intros shown H. discriminate.
    + intros a. cbn. split; [lia|discriminate].
Qed.

End CardMore.

Lemma clicks_reach_cart_or_detail_view_witness :
  cartCalls (fst (runClicks Sample.padThai
                    [ClickPlus; ClickAddToCart; ClickAddToCart] 1)) = []
  /\ navigations (fst (runClicks Sample.padThai
                         [ClickPlus; ClickAddToCart; ClickAddToCart] 1))
     = [ "/item/pad-thai"; "/item/pad-thai" ].
Proof.
  destruct (clicks_reach_cart_or_detail_view
              Sample.padThai [ClickPlus; ClickAddToCart; ClickAddToCart] 1)
    as [Hreq _].
  apply Hreq.
  exists [ {| required := true |}; {| required := false |} ],
         {| required := true |}.
  split; [reflexivity|]. split; [now left | reflexivity].
Defined.

Lemma plus_clicks_then_add_witness :
  cartCalls (fst (runClicks Sample.springRolls
                    [ClickPlus; ClickPlus; ClickAddToCart] initialQuantity))
  = [ {| line_id := "thai-spring-rolls";
         line_name := "Thai Spring Rolls";
         line_price := (7 # 1)%Q;
         line_quantity := 3 |} ].
Proof.
  destruct (plus_clicks_then_add Sample.springRolls 2) as (Hline & _).
  - intros (opts & o & Heq & _). discriminate.
  - exact Hline.
Defined.

Lemma allergy_risk_matches_panel_witness :
  allergyRisk (withAllergen (withAllergen Sample.springRolls "Gluten") "Soy")
  = "Medium".
Proof.
  destruct (allergy_risk_matches_panel
              (withAllergen (withAllergen Sample.springRolls "Gluten") "Soy"))
    as (_ & Hshown & _).
  destruct (Hshown ["Gluten"; "Soy"] eq_refl) as (_ & _ & _ & Hmedium).
  apply Hmedium. cbn. lia.
Defined.

(* ================================================================== *)
(** * What the page shows for a delivered result *)
(* ================================================================== *)

Section TitleLineFacts.







End TitleLineFacts.

Section Page.

Variable DbItem : Type.
Variable useMenuSearch : string -> list DbItem.
Variable menuCategories : list MenuCategory.t.


End Page.



Example say_hi_is_cut_at_the_inner_quote :
  currentQuery (snd (handleSearchResults Sample.startState
                       (textSearch Sample.catalog sayHi)))
  = "say ".
Proof. reflexivity. Qed.

Example quoted_phrase_keeps_its_opening_quote :
  currentQuery
    (snd (handleSearchResults
            Sample.startState
            (textSearch Sample.catalog
               (String dquote ("pad thai" ++ String dquote EmptyString)))))
  = String dquote "pad thai".
Proof. reflexivity. Qed.

(* ================================================================== *)
(** * Choosing a category *)
(* ================================================================== *)

Section CategoryTiles.

Variable DbItem : Type.
Variable useMenuSearch : string -> list DbItem.
Variable Category : Type.
Variable slug : Category -> string.



End CategoryTiles.

